(** * crewai-intelligent-builder: the task extractor, the guide renderer
      and the sequential crew runner

    A shallow embedding of [task_designer_agent.py] and
    [intelligent_crew_runner.py].

    Conventions of the model.
    - Python [str] values are Rocq [string]s.  The model is exact on ASCII
      text; a character above 127 is carried through unchanged ([strip],
      [lower] and [title] leave it alone).
    - A Python [dict] with string keys is an association list in insertion
      order, with [dict_set] overwriting in place as Python does.
    - Values decoded from JSON are [pyval]s.
    - An exception is a value of [exn]; code that can raise returns a
      [result].
    - The language model, the JSON decoder of the standard library, the
      clock and [str()] on values that are not strings are outside the
      repository: they are parameters of the development. *)

From Stdlib Require Import String Ascii List ZArith Lia Bool Arith.
From Stdlib Require Import Decimal DecimalString DecimalNat.
Import ListNotations.
Set Warnings "-register-all".
Open Scope string_scope.
Open Scope nat_scope.

(** ** Python strings *)

Module PyStr.

(** The one-character string [chr(10)]. *)
Definition nl : string := String "010"%char EmptyString.

(** [c.isspace()] on ASCII: tab, line feed, vertical tab, form feed,
    carriage return, the four separators 28..31 and the space. *)
Definition isspace (c : ascii) : bool :=
  let n := nat_of_ascii c in
  ((9 <=? n) && (n <=? 13)) || ((28 <=? n) && (n <=? 31)) || (n =? 32).

Fixpoint rev (s : string) : string :=
  match s with
  | EmptyString => EmptyString
  | String c s' => rev s' ++ String c EmptyString
  end.

Fixpoint lstrip (s : string) : string :=
  match s with
  | EmptyString => EmptyString
  | String c s' => if isspace c then lstrip s' else s
  end.

Definition rstrip (s : string) : string := rev (lstrip (rev s)).

(** [s.strip()] *)
Definition strip (s : string) : string := rstrip (lstrip s).

(** [m in s] *)
Fixpoint contains (m s : string) : bool :=
  prefix m s ||
  match s with
  | EmptyString => false
  | String _ s' => contains m s'
  end.

(** [s.split(sep)] for a non-empty [sep]: the text is cut at every
    occurrence of [sep] found scanning from the left, an occurrence being
    consumed whole.  [skip] counts the characters of the occurrence just
    found that are still to be dropped; [cur] is the piece being built. *)
Fixpoint split_from (sep : string) (skip : nat) (cur s : string) : list string :=
  match s with
  | EmptyString => [cur]
  | String c s' =>
      match skip with
      | S k => split_from sep k cur s'
      | O =>
          if prefix sep s
          then cur :: split_from sep (String.length sep - 1) EmptyString s'
          else split_from sep 0 (cur ++ String c EmptyString) s'
      end
  end.

Definition split (sep s : string) : list string := split_from sep 0 EmptyString s.

(** [s.replace(a, b)] for one-character [a] and [b]. *)
Fixpoint replace (a b : ascii) (s : string) : string :=
  match s with
  | EmptyString => EmptyString
  | String c s' => String (if Ascii.eqb c a then b else c) (replace a b s')
  end.

Definition isupper (c : ascii) : bool :=
  let n := nat_of_ascii c in (65 <=? n) && (n <=? 90).

Definition islower (c : ascii) : bool :=
  let n := nat_of_ascii c in (97 <=? n) && (n <=? 122).

Definition to_lower (c : ascii) : ascii :=
  if isupper c then ascii_of_nat (nat_of_ascii c + 32) else c.

Definition to_upper (c : ascii) : ascii :=
  if islower c then ascii_of_nat (nat_of_ascii c - 32) else c.

(** [s.lower()] *)
Fixpoint lower (s : string) : string :=
  match s with
  | EmptyString => EmptyString
  | String c s' => String (to_lower c) (lower s')
  end.

(** [s.title()]: a letter that follows a letter is lowered, any other
    letter is raised. *)
Fixpoint title_from (prev_cased : bool) (s : string) : string :=
  match s with
  | EmptyString => EmptyString
  | String c s' =>
      String (if prev_cased then to_lower c else to_upper c)
             (title_from (isupper c || islower c) s')
  end.

Definition title (s : string) : string := title_from false s.

(** [sep.join(parts)] *)
Definition join (sep : string) (parts : list string) : string :=
  String.concat sep parts.

(** [str(n)] for a non-negative [int], as the f-strings print an index or a
    length. *)
Definition str_of_nat (n : nat) : string :=
  NilZero.string_of_uint (Nat.to_uint n).

End PyStr.

(** ** Python values, dictionaries and exceptions *)

Module Py.

Inductive pyval : Type :=
| PNone
| PBool (b : bool)
| PInt (z : Z)
| PFloat (literal : string)
| PStr (s : string)
| PList (items : list pyval)
| PDict (entries : list (string * pyval)).

(** A [dict] keyed by strings, in insertion order. *)
Definition dict (V : Type) : Type := list (string * V).

Fixpoint dict_get {V} (k : string) (d : dict V) : option V :=
  match d with
  | [] => None
  | (k', v) :: d' => if String.eqb k k' then Some v else dict_get k d'
  end.

(** [d.get(k, default)] *)
Definition get {V} (d : dict V) (k : string) (default : V) : V :=
  match dict_get k d with
  | Some v => v
  | None => default
  end.

(** [d[k] = v]: the value of an existing key is replaced where it stands,
    a new key goes last. *)
Fixpoint dict_set {V} (k : string) (v : V) (d : dict V) : dict V :=
  match d with
  | [] => [(k, v)]
  | (k', v') :: d' =>
      if String.eqb k k' then (k', v) :: d' else (k', v') :: dict_set k v d'
  end.

Definition keys {V} (d : dict V) : list string := map fst d.

(** Truth value of a container: it is not empty. *)
Definition truthy {A} (l : list A) : bool :=
  match l with
  | [] => false
  | _ :: _ => true
  end.

Inductive exn : Type :=
| IndexError
| JSONDecodeError
| TypeError (msg : string)
| AttributeError (msg : string)
| ValueError (msg : string)
| Exception (msg : string).

(** [str(e)] *)
Definition exn_str (e : exn) : string :=
  match e with
  | IndexError => "list index out of range"
  | JSONDecodeError => "Expecting value"
  | TypeError m | AttributeError m | ValueError m | Exception m => m
  end.

Inductive result (A : Type) : Type :=
| Ok (a : A)
| Raise (e : exn).
Arguments Ok {A} a.
Arguments Raise {A} e.

Definition bind {A B} (m : result A) (f : A -> result B) : result B :=
  match m with
  | Ok a => f a
  | Raise e => Raise e
  end.

(** [l[i]] *)
Definition index {A} (l : list A) (i : nat) : result A :=
  match nth_error l i with
  | Some a => Ok a
  | None => Raise IndexError
  end.

(** A [for] loop whose body may raise. *)
Fixpoint for_each {S A} (body : S -> A -> result S) (l : list A) (s : S) : result S :=
  match l with
  | [] => Ok s
  | a :: l' => bind (body s a) (for_each body l')
  end.

(** Name of the type of a value, as error messages print it. *)
Definition type_name (v : pyval) : string :=
  match v with
  | PNone => "NoneType"
  | PBool _ => "bool"
  | PInt _ => "int"
  | PFloat _ => "float"
  | PStr _ => "str"
  | PList _ => "list"
  | PDict _ => "dict"
  end.

(** [len(v)] *)
Definition len (v : pyval) : result nat :=
  match v with
  | PStr s => Ok (String.length s)
  | PList l => Ok (List.length l)
  | PDict d => Ok (List.length d)
  | _ => Raise (TypeError ("object of type '" ++ type_name v ++ "' has no len()"))
  end.

End Py.

Declare Scope py_scope.
Notation "x <- m ;; k" := (Py.bind m (fun x => k))
  (at level 61, m at next level, right associativity) : py_scope.
Open Scope py_scope.

(** ** task_designer_agent.py *)

Module TaskDesigner.
Import PyStr Py.

(** What [execute_sync()] hands back, as far as the code looks at it:
    the attribute [raw] when the object has one, and [str(result)]. *)
Record TaskOutput : Type := {
  raw : option string;
  str : string
}.

(** A model answer that is a plain piece of text: [raw] and [str()] agree. *)
Definition text_output (text : string) : TaskOutput :=
  {| raw := Some text; str := text |}.

(** The longest prefix of [s] that ends with a closing bracket. *)
Fixpoint upto_last_close (s : string) : option string :=
  match s with
  | EmptyString => None
  | String c s' =>
      match upto_last_close s' with
      | Some t => Some (String c t)
      | None => if Ascii.eqb c "]" then Some (String c EmptyString) else None
      end
  end.

(** [re.search(r'\[.*\]', s, re.DOTALL)] followed by [.group()]: the
    leftmost opening bracket that has a closing bracket after it starts
    the match, and the greedy [.*] runs to the last closing bracket of the
    text. *)
Fixpoint re_search (s : string) : option string :=
  match s with
  | EmptyString => None
  | String c s' =>
      if Ascii.eqb c "["
      then match upto_last_close s' with
           | Some t => Some (String c t)
           | None => re_search s'
           end
      else re_search s'
  end.

(** A task as the extractor builds it and the runner reads it. *)
Definition task : Type := dict pyval.

Definition tasks_value (tasks : list task) : pyval := PList (map PDict tasks).

(** [_generate_fallback_tasks] *)
Definition _generate_fallback_tasks : list task :=
  [ [ ("name", PStr "Project Setup");
      ("description", PStr "Set up basic project structure and files");
      ("expected_output", PStr "Working project foundation");
      ("success_criteria", PStr "Files can be opened and basic structure exists") ];
    [ ("name", PStr "Core Implementation");
      ("description", PStr "Implement main functionality");
      ("expected_output", PStr "Working core features");
      ("success_criteria", PStr "Main features function as expected") ];
    [ ("name", PStr "Testing and Polish");
      ("description", PStr "Test functionality and add finishing touches");
      ("expected_output", PStr "Polished, working application");
      ("success_criteria", PStr "Application works without errors") ] ].

(** [line.split(marker)[1].strip()] *)
Definition after_marker (marker line : string) : result string :=
  piece <- index (split marker line) 1 ;;
  Ok (strip piece).

(** The body of the [for line in lines] loop of [_parse_text_tasks]; the
    state is the pair of [tasks] and [current_task]. *)
Definition scan_line (st : list task * task) (line : string)
  : result (list task * task) :=
  let '(tasks, current_task) := st in
  let line := strip line in
  if contains "TASK NAME:" line then
    let tasks := if truthy current_task then (tasks ++ [current_task])%list else tasks in
    name <- after_marker "TASK NAME:" line ;;
    Ok (tasks, [("name", PStr name)])
  else if contains "DESCRIPTION:" line then
    v <- after_marker "DESCRIPTION:" line ;;
    Ok (tasks, dict_set "description" (PStr v) current_task)
  else if contains "EXPECTED OUTPUT:" line then
    v <- after_marker "EXPECTED OUTPUT:" line ;;
    Ok (tasks, dict_set "expected_output" (PStr v) current_task)
  else if contains "SUCCESS CRITERIA:" line then
    v <- after_marker "SUCCESS CRITERIA:" line ;;
    Ok (tasks, dict_set "success_criteria" (PStr v) current_task)
  else Ok (tasks, current_task).

(** [_parse_text_tasks] *)
Definition _parse_text_tasks (text : string) : result (list task) :=
  let tasks : list task := [] in
  let current_task : task := [] in
  st <- for_each scan_line (split nl text) (tasks, current_task) ;;
  let '(tasks, current_task) := st in
  let tasks := if truthy current_task then (tasks ++ [current_task])%list else tasks in
  Ok (if truthy tasks then tasks else _generate_fallback_tasks).

(** The text that the [try] block reads: [result.raw] when the answer has
    that attribute, [str(result)] otherwise. *)
Definition task_data (result : TaskOutput) : string :=
  match raw result with
  | Some r => r
  | None => str result
  end.

Section Extractor.

(** [json.loads]: the decoded value, or the exception it raises. *)
Variable json_loads : string -> result pyval.

(** The [try] block of [generate_custom_tasks]. *)
Definition try_json (result : TaskOutput) : Py.result pyval :=
  let task_data := task_data result in
  match re_search task_data with
  | Some json_match => json_loads json_match
  | None => t <- _parse_text_tasks task_data ;; Ok (tasks_value t)
  end.

(** [generate_custom_tasks] from the point where the model has answered
    with [result]: the [try] block, and the [except Exception] handler that
    parses [str(result)] as text. *)
Definition generate_custom_tasks (result : TaskOutput) : Py.result pyval :=
  match try_json result with
  | Ok tasks => Ok tasks
  | Raise _ => t <- _parse_text_tasks (str result) ;; Ok (tasks_value t)
  end.

End Extractor.

(** What [analyze_project] returns; [analysis] stands for the text that
    an f-string prints for the stored model answer.  [analyze_project]
    stores no timestamp, a caller may. *)
Record AnalysisResult : Type := {
  analysis : string;
  project_idea : string;
  target_audience : string;
  timeline : string;
  timestamp : option string
}.

(** [enumerate(l, start)] *)
Definition enumerate {A} (start : nat) (l : list A) : list (nat * A) :=
  combine (seq start (List.length l)) l.

Section Guide.

(** [str(v)] for a value that is not a string. *)
Variable str_other : pyval -> string.

(** What an f-string prints for [v]. *)
Definition fmt (v : pyval) : string :=
  match v with
  | PStr s => s
  | _ => str_other v
  end.

Definition guide_header (analysis_result : AnalysisResult) (custom_tasks : list task)
  : string :=
  "# PROJECT DEVELOPMENT GUIDE" ++ nl ++
  "Generated: " ++ match timestamp analysis_result with
                   | Some t => t
                   | None => "Unknown"
                   end ++ nl ++
  nl ++
  "## PROJECT OVERVIEW" ++ nl ++
  "**Idea:** " ++ project_idea analysis_result ++ nl ++
  "**Target Audience:** " ++ target_audience analysis_result ++ nl ++
  "**Timeline:** " ++ timeline analysis_result ++ nl ++
  nl ++
  "## ANALYSIS RESULTS" ++ nl ++
  analysis analysis_result ++ nl ++
  nl ++
  "## DEVELOPMENT TASKS" ++ nl ++
  "Total Tasks: " ++ str_of_nat (List.length custom_tasks) ++ nl ++
  nl.

(** The f-string appended for task number [i]. *)
Definition guide_task (i : nat) (task : task) : string :=
  "### Task " ++ str_of_nat i ++ ": " ++ fmt (get task "name" (PStr "Unnamed Task")) ++ nl ++
  nl ++
  "**Description:** " ++ fmt (get task "description" (PStr "No description provided")) ++ nl ++
  nl ++
  "**Expected Output:** " ++ fmt (get task "expected_output" (PStr "No output specified")) ++ nl ++
  nl ++
  "**Success Criteria:** " ++ fmt (get task "success_criteria" (PStr "No criteria specified")) ++ nl ++
  nl ++
  "**Dependencies:** " ++ fmt (get task "dependencies" (PStr "None specified")) ++ nl ++
  nl ++
  "**Complexity:** " ++ fmt (get task "estimated_complexity" (PStr "Unknown")) ++ nl ++
  nl ++
  "---" ++ nl ++
  nl.

Definition guide_footer : string :=
  "## IMPLEMENTATION NOTES" ++ nl ++
  nl ++
  "1. **Follow the task order** - dependencies matter" ++ nl ++
  "2. **Test each task** before moving to the next" ++ nl ++
  "3. **Focus on working code** over perfect code" ++ nl ++
  "4. **Validate success criteria** for each task" ++ nl ++
  "5. **Document any deviations** from the plan" ++ nl ++
  nl ++
  "## SUCCESS METRICS" ++ nl ++
  nl ++
  "- [ ] All tasks completed successfully" ++ nl ++
  "- [ ] Final deliverable works as intended" ++ nl ++
  "- [ ] Success criteria met for each task" ++ nl ++
  "- [ ] Project meets original requirements" ++ nl ++
  nl.

(** [create_project_guide]: the header, one [guide += ...] per task of
    [enumerate(custom_tasks, 1)], and the closing [guide += ...]. *)
Definition create_project_guide
  (analysis_result : AnalysisResult) (custom_tasks : list task) : string :=
  let guide := guide_header analysis_result custom_tasks in
  let guide :=
    fold_left (fun guide it => guide ++ guide_task (fst it) (snd it))
              (enumerate 1 custom_tasks) guide in
  guide ++ guide_footer.

End Guide.

End TaskDesigner.

(** ** A JSON decoder

    [json.loads] belongs to Python's library, so the extractor above takes
    it as a parameter.  [Json.loads] is an instance for the closed examples
    below.  It follows the grammar of [json.decoder] and [json.scanner]
    (strict mode) on texts without [\u] escapes, which it rejects. *)

Module Json.
Import PyStr Py.

Definition quote : ascii := "034"%char.
Definition backslash : ascii := "092"%char.

(** [s] between double quotes. *)
Definition quoted (s : string) : string :=
  String quote s ++ String quote EmptyString.

Definition is_ws (c : ascii) : bool :=
  let n := nat_of_ascii c in (n =? 32) || (n =? 9) || (n =? 10) || (n =? 13).

Fixpoint skip_ws (s : string) : string :=
  match s with
  | EmptyString => EmptyString
  | String c s' => if is_ws c then skip_ws s' else s
  end.

Definition is_digit (c : ascii) : bool :=
  let n := nat_of_ascii c in (48 <=? n) && (n <=? 57).

(** The digits at the head of [s], and what follows them. *)
Fixpoint take_digits (s : string) : string * string :=
  match s with
  | EmptyString => (EmptyString, EmptyString)
  | String c s' =>
      if is_digit c
      then let '(d, r) := take_digits s' in (String c d, r)
      else (EmptyString, s)
  end.

Fixpoint digits_value (acc : Z) (s : string) : Z :=
  match s with
  | EmptyString => acc
  | String c s' => digits_value (10 * acc + Z.of_nat (nat_of_ascii c - 48))%Z s'
  end.

(** The text of a string literal after its opening quote. *)
Fixpoint scan_string (acc s : string) : option (string * string) :=
  match s with
  | EmptyString => None
  | String c s' =>
      if Ascii.eqb c quote then Some (acc, s')
      else if Ascii.eqb c backslash then
        match s' with
        | EmptyString => None
        | String e s'' =>
            let esc (n : nat) := scan_string (acc ++ String (ascii_of_nat n) EmptyString) s'' in
            if Ascii.eqb e quote then esc 34
            else if Ascii.eqb e backslash then esc 92
            else if Ascii.eqb e "/" then esc 47
            else if Ascii.eqb e "b" then esc 8
            else if Ascii.eqb e "f" then esc 12
            else if Ascii.eqb e "n" then esc 10
            else if Ascii.eqb e "r" then esc 13
            else if Ascii.eqb e "t" then esc 9
            else None
        end
      else if nat_of_ascii c <? 32 then None
      else scan_string (acc ++ String c EmptyString) s'
  end.

(** A number: an optional minus sign, then a zero or a run of digits that
    does not start with zero, then an optional fraction and an optional
    exponent.  It is an [int] when neither of the last two is there. *)
Definition scan_number (s : string) : option (pyval * string) :=
  let '(neg, s1) :=
    match s with
    | String c r => if Ascii.eqb c "-" then (true, r) else (false, s)
    | EmptyString => (false, s)
    end in
  let int_part :=
    match s1 with
    | String c r =>
        if Ascii.eqb c "0" then Some ("0", r)
        else if is_digit c then Some (take_digits s1)
        else None
    | EmptyString => None
    end in
  match int_part with
  | None => None
  | Some (ds, r) =>
      let '(frac, r1) :=
        match r with
        | String c r' =>
            if Ascii.eqb c "." then
              match take_digits r' with
              | (EmptyString, _) => (EmptyString, r)
              | (fd, r'') => (String c fd, r'')
              end
            else (EmptyString, r)
        | EmptyString => (EmptyString, r)
        end in
      let '(exp, r2) :=
        match r1 with
        | String c r' =>
            if Ascii.eqb c "e" || Ascii.eqb c "E" then
              let '(sign, r'') :=
                match r' with
                | String g t =>
                    if Ascii.eqb g "+" || Ascii.eqb g "-"
                    then (String g EmptyString, t) else (EmptyString, r')
                | EmptyString => (EmptyString, r')
                end in
              match take_digits r'' with
              | (EmptyString, _) => (EmptyString, r1)
              | (ed, r3) => (String c (sign ++ ed), r3)
              end
            else (EmptyString, r1)
        | EmptyString => (EmptyString, r1)
        end in
      let sign := if neg then "-" else "" in
      match frac, exp with
      | EmptyString, EmptyString =>
          let z := digits_value 0 ds in
          Some (PInt (if neg then (- z)%Z else z), r2)
      | _, _ => Some (PFloat (sign ++ ds ++ frac ++ exp), r2)
      end
  end.

(** [lit] at the head of [s]. *)
Definition expect (lit : string) (v : pyval) (s : string) : option (pyval * string) :=
  if prefix lit s
  then Some (v, substring (String.length lit) (String.length s - String.length lit) s)
  else None.

Definition first_some {A} (a b : option A) : option A :=
  match a with
  | Some _ => a
  | None => b
  end.

(** [scan_once], with the loops of [JSONArray] and [JSONObject]. *)
Fixpoint scan_once (fuel : nat) (s : string) : option (pyval * string) :=
  match fuel with
  | O => None
  | S fuel =>
      match s with
      | EmptyString => None
      | String c s' =>
          if Ascii.eqb c quote then
            match scan_string EmptyString s' with
            | Some (str, r) => Some (PStr str, r)
            | None => None
            end
          else if Ascii.eqb c "{" then
            match skip_ws s' with
            | String c' r =>
                if Ascii.eqb c' "}" then Some (PDict [], r)
                else scan_pairs fuel [] (String c' r)
            | EmptyString => None
            end
          else if Ascii.eqb c "[" then
            match skip_ws s' with
            | String c' r =>
                if Ascii.eqb c' "]" then Some (PList [], r)
                else scan_items fuel [] (String c' r)
            | EmptyString => None
            end
          else
            first_some (expect "null" PNone s)
            (first_some (expect "true" (PBool true) s)
            (first_some (expect "false" (PBool false) s)
            (first_some (scan_number s)
            (first_some (expect "NaN" (PFloat "nan") s)
            (first_some (expect "Infinity" (PFloat "inf") s)
                        (expect "-Infinity" (PFloat "-inf") s))))))
      end
  end
with scan_items (fuel : nat) (acc : list pyval) (s : string) : option (pyval * string) :=
  match fuel with
  | O => None
  | S fuel =>
      match scan_once fuel s with
      | None => None
      | Some (v, r) =>
          match skip_ws r with
          | String c r' =>
              if Ascii.eqb c "]" then Some (PList (acc ++ [v]), r')
              else if Ascii.eqb c "," then scan_items fuel (acc ++ [v]) (skip_ws r')
              else None
          | EmptyString => None
          end
      end
  end
with scan_pairs (fuel : nat) (acc : dict pyval) (s : string) : option (pyval * string) :=
  match fuel with
  | O => None
  | S fuel =>
      match s with
      | EmptyString => None
      | String c s' =>
          if negb (Ascii.eqb c quote) then None
          else
            match scan_string EmptyString s' with
            | None => None
            | Some (key, r) =>
                match skip_ws r with
                | String c1 r1 =>
                    if negb (Ascii.eqb c1 ":") then None
                    else
                      match scan_once fuel (skip_ws r1) with
                      | None => None
                      | Some (v, r2) =>
                          match skip_ws r2 with
                          | String c2 r3 =>
                              if Ascii.eqb c2 "}" then Some (PDict (dict_set key v acc), r3)
                              else if Ascii.eqb c2 ","
                              then scan_pairs fuel (dict_set key v acc) (skip_ws r3)
                              else None
                          | EmptyString => None
                          end
                      end
                | EmptyString => None
                end
            end
      end
  end.

(** [json.loads]: one value, white space allowed around it and nothing
    else. *)
Definition loads (s : string) : result pyval :=
  match scan_once (2 * String.length s + 2) (skip_ws s) with
  | Some (v, r) =>
      match skip_ws r with
      | EmptyString => Ok v
      | String _ _ => Raise JSONDecodeError
      end
  | None => Raise JSONDecodeError
  end.

End Json.

(** ** intelligent_crew_runner.py *)

Module CrewRunner.
Import PyStr Py TaskDesigner.

(** What [analyze_and_design_tasks] returns, as far as the runner reads
    it; a [None] stands for a missing key, which the [.get] calls of
    [combine_intelligent_results] allow for. *)
Record DesignResult : Type := {
  design_analysis : option AnalysisResult;
  custom_tasks : list task;
  project_guide : option string
}.

(** Why the runner sleeps: between two tasks, or after a rate limit. *)
Inductive pause : Type := Pacing | Cooldown.

(** What the runner does to the outside world during iteration [i]:
    it enters the [try] block, where the task is built and submitted, and
    it calls [time.sleep]. *)
Inductive event : Type :=
| Attempt (i : nat)
| Sleep (i : nat) (why : pause) (seconds : Z).

Section Runner.

(** A Python [float] and its rendering by the format [.1f]. *)
Variable pyfloat : Type.
Variable format_1f : pyfloat -> string.

(** The outcome of building and executing a task: [execute_sync]
    returns a result after some wall-clock time, or an exception
    reaches the handler, of which [str(e)] is kept. *)
Inductive outcome : Type :=
| Returned (result : TaskOutput) (execution_time : pyfloat)
| Raised (error_msg : string).

(** What the outside world answers during one iteration: the outcome of
    the task, and the readings of [datetime.now().isoformat()] in the
    [try] block and in the handler. *)
Record attempt : Type := {
  task_outcome : outcome;
  now_try : string;
  now_except : string
}.

(** An ExecutionRecord: the dictionary stored for a task, with the key
    [error] or without it. *)
Inductive record : Type :=
| Success (task_config : task) (result : TaskOutput) (execution_time : pyfloat)
          (estimated_tokens : nat) (timestamp : string)
| Failure (task_config : task) (error : string) (timestamp : string).

(** ['error' in v] *)
Definition has_error (v : record) : bool :=
  match v with
  | Success _ _ _ _ _ => false
  | Failure _ _ _ => true
  end.

(** A value of the mapping that [run_intelligent_crew] returns. *)
Inductive entry : Type :=
| Record_ (r : record)
| Combined (text : string)
| Analysis (analysis_result : DesignResult).

(** [name.replace(' ', '_').lower()]; only a [str] has [replace]. *)
Definition slug (name : pyval) : result string :=
  match name with
  | PStr s => Ok (lower (replace " " "_" s))
  | v => Raise (AttributeError
                  ("'" ++ type_name v ++ "' object has no attribute 'replace'"))
  end.

Definition success_key (i : nat) (name_slug : string) : string :=
  "task_" ++ str_of_nat i ++ "_" ++ name_slug.

Definition failed_key (i : nat) : string :=
  "task_" ++ str_of_nat i ++ "_failed".

(** [time.sleep(seconds)] *)
Definition sleep (i : nat) (why : pause) (seconds : Z) (trace : list event)
  : list event * result unit :=
  if (seconds <? 0)%Z
  then (trace, Raise (ValueError "sleep length must be non-negative"))
  else ((trace ++ [Sleep i why seconds])%list, Ok tt).

Definition extra_delay : Z := 120.

Definition state : Type := dict record * list event.

(** The [try] block of iteration [i].  What it has stored and done stays
    when it raises. *)
Definition try_task (delay_between_chunks : Z) (total i : nat) (task_config : task)
  (estimated_tokens : nat) (world : attempt) (st : state) : state * result unit :=
  let '(results, trace) := st in
  let trace := (trace ++ [Attempt i])%list in
  match task_outcome world with
  | Raised error_msg => ((results, trace), Raise (Exception error_msg))
  | Returned result execution_time =>
      match slug (get task_config "name" (PStr "unnamed")) with
      | Raise e => ((results, trace), Raise e)
      | Ok name_slug =>
          let results :=
            dict_set (success_key i name_slug)
              (Success task_config result execution_time estimated_tokens
                       (now_try world))
              results in
          if i <? total
          then let '(trace, r) := sleep i Pacing delay_between_chunks trace in
               ((results, trace), r)
          else ((results, trace), Ok tt)
      end
  end.

(** The handler [except Exception as e] of iteration [i]. *)
Definition except_task (i : nat) (task_config : task) (world : attempt)
  (e : exn) (st : state) : state :=
  let '(results, trace) := st in
  let error_msg := exn_str e in
  let results :=
    dict_set (failed_key i) (Failure task_config error_msg (now_except world))
             results in
  if contains "RateLimitError" error_msg
  then (results, fst (sleep i Cooldown extra_delay trace))
  else (results, trace).

(** One iteration of the loop over [enumerate(custom_tasks, 1)].  The
    estimate of the tokens is computed before the [try] block: an error
    there leaves the loop. *)
Definition run_task (delay_between_chunks : Z) (total : nat) (world : nat -> attempt)
  (st : state) (it : nat * task) : state * result unit :=
  let '(i, task_config) := it in
  let task_description := get task_config "description" (PStr "") in
  match len task_description with
  | Raise e => (st, Raise e)
  | Ok n =>
      let estimated_tokens := n * 4 in
      match try_task delay_between_chunks total i task_config estimated_tokens
                     (world i) st with
      | (st, Ok _) => (st, Ok tt)
      | (st, Raise e) => (except_task i task_config (world i) e st, Ok tt)
      end
  end.

Fixpoint run_tasks (delay_between_chunks : Z) (total : nat) (world : nat -> attempt)
  (items : list (nat * task)) (st : state) : state * result unit :=
  match items with
  | [] => (st, Ok tt)
  | it :: items' =>
      match run_task delay_between_chunks total world st it with
      | (st, Ok _) => run_tasks delay_between_chunks total world items' st
      | (st, Raise e) => (st, Raise e)
      end
  end.

(** The text appended for one entry of [task_results]. *)
Definition combine_task (task_name : string) (task_data : record) : list string :=
  let heading := "### " ++ title (replace "_" " " task_name) in
  let body :=
    match task_data with
    | Failure _ error _ =>
        [ "**Status:** Failed";
          "**Error:** " ++ error ]
    | Success _ result execution_time _ _ =>
        [ "**Status:** Success";
          "**Execution Time:** " ++ format_1f execution_time ++ "s";
          match raw result with
          | Some r => r
          | None => str result
          end ]
    end in
  heading :: List.app body [ "" ].

(** [combine_intelligent_results]; [now] is the reading of the clock. *)
Definition combine_intelligent_results (now : string)
  (task_results : dict record) (analysis_result : DesignResult) : string :=
  let combined :=
    [ "# INTELLIGENT PROJECT DEVELOPMENT RESULTS";
      "Generated: " ++ now;
      "";
      "## PROJECT ANALYSIS";
      match design_analysis analysis_result with
      | Some a => analysis a
      | None => "No analysis available"
      end;
      "";
      "## TASK EXECUTION RESULTS";
      "" ] in
  let combined :=
    fold_left
      (fun combined kv =>
         let '(task_name, task_data) := kv in
         if String.eqb task_name "combined" || String.eqb task_name "analysis"
         then combined
         else (combined ++ combine_task task_name task_data)%list)
      task_results combined in
  let combined :=
    (combined ++
     [ "## IMPLEMENTATION GUIDE";
       match project_guide analysis_result with
       | Some g => g
       | None => "No guide available"
       end ])%list in
  join nl combined.

(** The records as values of the returned mapping. *)
Definition as_entries (results : dict record) : dict entry :=
  map (fun kv => (fst kv, Record_ (snd kv))) results.

(** Steps 3 and 4 of [run_intelligent_crew]: the loop over the designed
    tasks and the compilation of the results.  The answer is the trace of
    what was done, and the returned mapping or the exception that left
    the function. *)
Definition run_intelligent_crew (delay_between_chunks : Z)
  (world : nat -> attempt) (now : string) (analysis_result : DesignResult)
  : list event * result (dict entry) :=
  let custom_tasks := custom_tasks analysis_result in
  match run_tasks delay_between_chunks (List.length custom_tasks) world
                  (enumerate 1 custom_tasks) ([], []) with
  | ((_, trace), Raise e) => (trace, Raise e)
  | ((results, trace), Ok _) =>
      let successful_tasks := filter (fun kv => negb (has_error (snd kv))) results in
      let returned := as_entries results in
      if truthy successful_tasks
      then
        let combined_result := combine_intelligent_results now results analysis_result in
        let returned := dict_set "combined" (Combined combined_result) returned in
        let returned := dict_set "analysis" (Analysis analysis_result) returned in
        (trace, Ok returned)
      else (trace, Ok returned)
  end.

End Runner.

Arguments Returned {pyfloat} result execution_time.
Arguments Raised {pyfloat} error_msg.
Arguments task_outcome {pyfloat} a.
Arguments now_try {pyfloat} a.
Arguments now_except {pyfloat} a.
Arguments Success {pyfloat} task_config result execution_time estimated_tokens timestamp.
Arguments Failure {pyfloat} task_config error timestamp.
Arguments has_error {pyfloat} v.
Arguments Record_ {pyfloat} r.
Arguments Combined {pyfloat} text.
Arguments Analysis {pyfloat} analysis_result.
Arguments try_task {pyfloat}.
Arguments except_task {pyfloat}.
Arguments run_task {pyfloat}.
Arguments run_tasks {pyfloat}.
Arguments combine_task {pyfloat}.
Arguments combine_intelligent_results {pyfloat}.
Arguments as_entries {pyfloat}.
Arguments run_intelligent_crew {pyfloat}.

End CrewRunner.

(** * What the claims speak of *)

(** ** The line heuristic, described by blocks of lines *)

Module ExtractorSpec.
Import PyStr Py TaskDesigner.

(** The lines as the scanner sees them, stripped. *)
Definition lines (text : string) : list string := map strip (split nl text).

(** Number of occurrences of [marker] in [text], counted as [split]
    finds them. *)
Definition occurrences (marker text : string) : nat :=
  List.length (split marker text) - 1.

Definition is_name_line (line : string) : bool := contains "TASK NAME:" line.

(** The text after the first occurrence of [marker], up to the next one,
    stripped. *)
Definition text_after (marker line : string) : string :=
  strip (nth 1 (split marker line) "").

(** The field that a line sets, when it is not a name line: the first of
    the three field markers found in it decides. *)
Definition field_of_line (line : string) : option (string * string) :=
  if contains "DESCRIPTION:" line
  then Some ("description", text_after "DESCRIPTION:" line)
  else if contains "EXPECTED OUTPUT:" line
  then Some ("expected_output", text_after "EXPECTED OUTPUT:" line)
  else if contains "SUCCESS CRITERIA:" line
  then Some ("success_criteria", text_after "SUCCESS CRITERIA:" line)
  else None.

(** The line carries one of the four markers. *)
Definition has_marker (line : string) : bool :=
  is_name_line line ||
  match field_of_line line with
  | Some _ => true
  | None => false
  end.

(** The lines before the first name line. *)
Fixpoint preamble (ls : list string) : list string :=
  match ls with
  | [] => []
  | l :: ls' => if is_name_line l then [] else l :: preamble ls'
  end.

(** One block per name line: the name line, and the lines that follow it
    up to the next name line. *)
Fixpoint blocks (ls : list string) : list (string * list string) :=
  match ls with
  | [] => []
  | l :: ls' =>
      if is_name_line l then (l, preamble ls') :: blocks ls' else blocks ls'
  end.

(** The value that the last line of [body] setting [key] gives it. *)
Fixpoint last_value (key : string) (body : list string) : option string :=
  match body with
  | [] => None
  | l :: body' =>
      match last_value key body' with
      | Some v => Some v
      | None =>
          match field_of_line l with
          | Some (k, v) => if String.eqb key k then Some v else None
          | None => None
          end
      end
  end.

(** What a line that is not a name line does to the record in progress. *)
Definition apply_field (current_task : task) (line : string) : task :=
  match field_of_line line with
  | Some (k, v) => dict_set k (PStr v) current_task
  | None => current_task
  end.

(** The record of a block. *)
Definition block_record (b : string * list string) : task :=
  fold_left apply_field (snd b) [("name", PStr (text_after "TASK NAME:" (fst b)))].

(** The record in progress, as a list of zero or one record. *)
Definition flush (current_task : task) : list task :=
  if truthy current_task then [current_task] else [].

End ExtractorSpec.

(** ** The guide, described section by section *)

Module GuideSpec.
Import PyStr Py TaskDesigner.

(** The labelled fields of a task section in the documented order: the
    label, the key read from the task, and the placeholder printed when
    the key is absent. *)
Definition documented_fields : list (string * string * string) :=
  [ ("Description", "description", "No description provided");
    ("Expected Output", "expected_output", "No output specified");
    ("Success Criteria", "success_criteria", "No criteria specified");
    ("Dependencies", "dependencies", "None specified");
    ("Complexity", "estimated_complexity", "Unknown") ].

(** The pieces of a text put one after the other. *)
Definition glue (parts : list string) : string := fold_right append "" parts.

Section Sections.

Variable str_other : pyval -> string.

(** The value of a field as printed, or the placeholder. *)
Definition field_text (task : task) (key placeholder : string) : string :=
  match dict_get key task with
  | Some v => fmt str_other v
  | None => placeholder
  end.

Definition field_paragraph (task : task) (f : string * string * string) : string :=
  let '(label, key, placeholder) := f in
  "**" ++ label ++ ":** " ++ field_text task key placeholder ++ nl ++ nl.

(** The section of task number [i]: the heading with the name, one
    paragraph per documented field, a rule. *)
Definition task_section (i : nat) (task : task) : string :=
  "### Task " ++ str_of_nat i ++ ": " ++ field_text task "name" "Unnamed Task" ++ nl ++ nl ++
  glue (map (field_paragraph task) documented_fields) ++
  "---" ++ nl ++ nl.

End Sections.

End GuideSpec.

(** ** The run, described task by task *)

Module RunnerSpec.
Import PyStr Py TaskDesigner CrewRunner.

(** The description of the task, when present, can be measured by
    [len]: it is a string, a list or a dictionary. *)
Definition description_sized (task : task) : bool :=
  match len (get task "description" (PStr "")) with
  | Ok _ => true
  | Raise _ => false
  end.

(** Four times the length of the description. *)
Definition tokens (task : task) : nat :=
  match len (get task "description" (PStr "")) with
  | Ok n => n * 4
  | Raise _ => 0
  end.

Definition is_attempt (e : event) : bool :=
  match e with
  | Attempt _ => true
  | Sleep _ _ _ => false
  end.

Definition is_cooldown (e : event) : bool :=
  match e with
  | Sleep _ Cooldown _ => true
  | _ => false
  end.

Definition is_pacing (e : event) : bool :=
  match e with
  | Sleep _ Pacing _ => true
  | _ => false
  end.

Section Run.

Variable pyfloat : Type.
Variable format_1f : pyfloat -> string.

(** The message of the error that ends the [try] block for this task,
    when the delay between tasks is not negative: the one of the
    execution, or the one of a name that is not a string. *)
Definition failure_of (world : attempt pyfloat) (task : task) : option string :=
  match task_outcome world with
  | Raised error_msg => Some error_msg
  | Returned _ _ =>
      match slug (get task "name" (PStr "unnamed")) with
      | Ok _ => None
      | Raise e => Some (exn_str e)
      end
  end.

(** The failure of the task is one that carries the rate-limit marker. *)
Definition rate_limited (world : nat -> attempt pyfloat) (it : nat * task) : bool :=
  match failure_of (world (fst it)) (snd it) with
  | Some error_msg => contains "RateLimitError" error_msg
  | None => false
  end.

Definition failed (world : nat -> attempt pyfloat) (it : nat * task) : bool :=
  match failure_of (world (fst it)) (snd it) with
  | Some _ => true
  | None => false
  end.

(** The key and the ExecutionRecord of task number [i]. *)
Definition expected_record (world : nat -> attempt pyfloat) (it : nat * task)
  : string * record pyfloat :=
  let '(i, task) := it in
  match task_outcome (world i) with
  | Raised error_msg =>
      (failed_key i, Failure task error_msg (now_except (world i)))
  | Returned result execution_time =>
      match slug (get task "name" (PStr "unnamed")) with
      | Ok name_slug =>
          (success_key i name_slug,
           Success task result execution_time (tokens task)
                   (now_try (world i)))
      | Raise e =>
          (failed_key i, Failure task (exn_str e) (now_except (world i)))
      end
  end.

(** What iteration [i] does to the outside world. *)
Definition expected_events (delay_between_chunks : Z) (total : nat)
  (world : nat -> attempt pyfloat) (it : nat * task) : list event :=
  Attempt (fst it) ::
  match failure_of (world (fst it)) (snd it) with
  | Some error_msg =>
      if contains "RateLimitError" error_msg
      then [Sleep (fst it) Cooldown 120]
      else []
  | None =>
      if fst it <? total
      then [Sleep (fst it) Pacing delay_between_chunks]
      else []
  end.

(** The ExecutionRecords of the returned mapping. *)
Fixpoint records_of (returned : dict (entry pyfloat)) : dict (record pyfloat) :=
  match returned with
  | [] => []
  | (k, Record_ r) :: d => (k, r) :: records_of d
  | _ :: d => records_of d
  end.

(** The lines of the combined report for one ExecutionRecord: a heading,
    the status, and the duration followed by the result text, or the
    error text. *)
Definition record_lines (kv : string * record pyfloat) : list string :=
  let heading := "### " ++ title (replace "_" " " (fst kv)) in
  match snd kv with
  | Success _ result execution_time _ _ =>
      [ heading;
        "**Status:** Success";
        "**Execution Time:** " ++ format_1f execution_time ++ "s";
        task_data result;
        "" ]
  | Failure _ error _ =>
      [ heading;
        "**Status:** Failed";
        "**Error:** " ++ error;
        "" ]
  end.

(** The combined report: the analysis, the records, the guide. *)
Definition report (now : string) (analysis_result : DesignResult)
  (records : dict (record pyfloat)) : string :=
  let opening :=
    [ "# INTELLIGENT PROJECT DEVELOPMENT RESULTS";
      "Generated: " ++ now;
      "";
      "## PROJECT ANALYSIS";
      match design_analysis analysis_result with
      | Some a => analysis a
      | None => "No analysis available"
      end;
      "";
      "## TASK EXECUTION RESULTS";
      "" ] in
  let closing :=
    [ "## IMPLEMENTATION GUIDE";
      match project_guide analysis_result with
      | Some g => g
      | None => "No guide available"
      end ] in
  join nl (List.app opening (List.app (flat_map record_lines records) closing)).

End Run.

Arguments failure_of {pyfloat}.
Arguments rate_limited {pyfloat}.
Arguments failed {pyfloat}.
Arguments expected_record {pyfloat}.
Arguments expected_events {pyfloat}.
Arguments records_of {pyfloat}.
Arguments record_lines {pyfloat}.
Arguments report {pyfloat}.

(** The name of the key of task number [i]: the index between two
    underscores after the word task. *)
Definition key_of_index (i : nat) (k : string) : Prop :=
  exists rest, k = "task_" ++ str_of_nat i ++ "_" ++ rest.

(** The key starts with the word task and an underscore. *)
Definition is_task_key (k : string) : bool := prefix "task_" k.

(** A duration in tenths of a second and its rendering with one decimal:
    an instance of the parameters [pyfloat] and [format_1f] for the
    closed examples. *)
Definition tenths_1f (tenths : nat) : string :=
  str_of_nat (tenths / 10) ++ "." ++ str_of_nat (tenths mod 10).

(** A world for the closed examples: the first task returns, the second
    meets a rate limit, the third fails for another reason, any later
    task returns. *)
Definition example_world (i : nat) : attempt nat :=
  match i with
  | 1 => {| task_outcome := Returned (text_output "index.html written") 125;
            now_try := "2025-01-01T10:00:00"; now_except := "2025-01-01T10:00:01" |}
  | 2 => {| task_outcome := Raised "openai.RateLimitError: quota exceeded";
            now_try := "2025-01-01T10:02:00"; now_except := "2025-01-01T10:02:01" |}
  | 3 => {| task_outcome := Raised "rate limit exceeded";
            now_try := "2025-01-01T10:05:00"; now_except := "2025-01-01T10:05:01" |}
  | _ => {| task_outcome := Returned (text_output "done") 31;
            now_try := "2025-01-01T10:06:00"; now_except := "2025-01-01T10:06:01" |}
  end.

(** A world in which every task fails. *)
Definition failing_world (i : nat) : attempt nat :=
  {| task_outcome := Raised "boom";
     now_try := "2025-01-01T10:00:00"; now_except := "2025-01-01T10:00:01" |}.

Definition example_tasks : list task :=
  [ [ ("name", PStr "Build UI"); ("description", PStr "Draw the board") ];
    [ ("name", PStr "Game Loop"); ("description", PStr "Run it") ];
    [ ("description", PStr "Polish") ];
    [ ("name", PStr "Ship") ] ].

Definition example_design : DesignResult :=
  {| design_analysis :=
       Some {| analysis := "A small canvas game."; project_idea := "space invaders";
               target_audience := "casual gamers"; timeline := "1 week";
               timestamp := None |};
     custom_tasks := example_tasks;
     project_guide := Some "# PROJECT DEVELOPMENT GUIDE" |}.

Definition one_task_design : DesignResult :=
  {| design_analysis := None;
     custom_tasks := [ [ ("name", PStr "Build UI") ] ];
     project_guide := None |}.

Fixpoint all_digits (s : string) : bool :=
  match s with
  | EmptyString => true
  | String c s' => Json.is_digit c && all_digits s'
  end.

End RunnerSpec.

(** ** The rest of the pipeline *)

Module Pipeline.
Import PyStr Py TaskDesigner CrewRunner.

(** [analyze_project] from the point where the model has answered with
    [result]: the dictionary it returns.  It stores no timestamp. *)
Definition analyze_project (project_idea target_audience timeline : string)
  (result : TaskOutput) : AnalysisResult :=
  {| analysis := str result;
     project_idea := project_idea;
     target_audience := target_audience;
     timeline := timeline;
     timestamp := None |}.

(** The elements of a list as the loops over the tasks use them: each
    one is asked for [.get], which only a dictionary has. *)
Fixpoint dicts_of (items : list pyval) : result (list task) :=
  match items with
  | [] => Ok []
  | PDict d :: rest => tl <- dicts_of rest ;; Ok (d :: tl)
  | v :: _ =>
      Raise (AttributeError ("'" ++ type_name v ++ "' object has no attribute 'get'"))
  end.

(** What [create_project_guide] makes of the value that the extractor
    returned: [len(custom_tasks)] is printed in the header, then each
    element met by the loop is asked for [.get].  A string yields its
    characters and a dictionary its keys, which are strings. *)
Definition iterate_tasks (custom_tasks : pyval) : result (list task) :=
  match custom_tasks with
  | PList items => dicts_of items
  | PStr EmptyString => Ok []
  | PDict [] => Ok []
  | PStr (String _ _) | PDict (_ :: _) =>
      Raise (AttributeError "'str' object has no attribute 'get'")
  | v => Raise (TypeError ("object of type '" ++ type_name v ++ "' has no len()"))
  end.

Section Design.

Variable json_loads : string -> result pyval.
Variable str_other : pyval -> string.

(** [analyze_and_design_tasks], the two answers of the model being
    given.  The two constant entries of the dictionary it returns,
    which nothing reads, are left out. *)
Definition analyze_and_design_tasks
  (project_idea target_audience timeline : string)
  (analysis_answer tasks_answer : TaskOutput) : result DesignResult :=
  let analysis := analyze_project project_idea target_audience timeline analysis_answer in
  custom_tasks <- generate_custom_tasks json_loads tasks_answer ;;
  tasks <- iterate_tasks custom_tasks ;;
  let guide := create_project_guide str_other analysis tasks in
  Ok {| design_analysis := Some analysis;
        custom_tasks := tasks;
        project_guide := Some guide |}.

Variable pyfloat : Type.
Variable format_1f : pyfloat -> string.

(** The whole of [run_intelligent_crew]: the design, then the loop and
    the compilation. *)
Definition run_crew (delay_between_chunks : Z)
  (project_idea target_audience timeline : string)
  (analysis_answer tasks_answer : TaskOutput)
  (world : nat -> attempt pyfloat) (now : string)
  : list event * result (dict (entry pyfloat)) :=
  match analyze_and_design_tasks project_idea target_audience timeline
          analysis_answer tasks_answer with
  | Raise e => ([], Raise e)
  | Ok analysis_result =>
      run_intelligent_crew format_1f delay_between_chunks world now analysis_result
  end.

(** What is done to the file system. *)
Inductive fs_event : Type :=
| MakeDirs (path : string)
| OpenFile (path : string)
| WriteFile (path content : string).

(** What the file system answers to [os.makedirs(path, exist_ok=True)],
    to the opening of a file for writing and to the writing of a text
    into the file just opened.  Each of them may raise. *)
Record disk : Type := {
  makedirs : string -> result unit;
  open_w : string -> result unit;
  write : string -> string -> result unit
}.

(** [with open(path, 'w') as f:] followed by the writing of [content].
    The file is opened first; then the text to write is computed, which
    may raise; then it is written.  The first error ends the step. *)
Definition save_file (d : disk) (path : string) (content : result string)
  (saved : list fs_event) : list fs_event * result unit :=
  match open_w d path with
  | Raise e => (saved, Raise e)
  | Ok _ =>
      let saved := List.app saved [OpenFile path] in
      match content with
      | Raise e => (saved, Raise e)
      | Ok text =>
          match write d path text with
          | Raise e => (saved, Raise e)
          | Ok _ => (List.app saved [WriteFile path text], Ok tt)
          end
      end
  end.

(** [json.dump(results, f, indent=2, default=str)] as a text. *)
Variable json_dump : dict (entry pyfloat) -> string.

Definition output_dir : string := "/Users/brettstark/Projects/space-invaders-game".

(** The saving of the results in [run_space_invaders]; [timestamp] is
    the reading of the clock in the format of the file names.  Nothing
    catches an error of the file system or of a writing. *)
Definition save_results (d : disk) (timestamp : string)
  (results : dict (entry pyfloat)) : list fs_event * result unit :=
  let output_file := output_dir ++ "/game_output_" ++ timestamp ++ ".json" in
  let combined_file := output_dir ++ "/game_output_" ++ timestamp ++ "_combined.md" in
  let guide_file := output_dir ++ "/project_guide_" ++ timestamp ++ ".md" in
  match makedirs d output_dir with
  | Raise e => ([], Raise e)
  | Ok _ =>
      match save_file d output_file (Ok (json_dump results)) [MakeDirs output_dir] with
      | (saved, Raise e) => (saved, Raise e)
      | (saved, Ok _) =>
          let save_combined : list fs_event * result unit :=
            match dict_get "combined" results with
            | None => (saved, Ok tt)
            | Some (Combined text) => save_file d combined_file (Ok text) saved
            | Some _ =>
                save_file d combined_file
                  (Raise (TypeError "write() argument must be str, not dict")) saved
            end in
          match save_combined with
          | (saved, Raise e) => (saved, Raise e)
          | (saved, Ok _) =>
              match dict_get "analysis" results with
              | Some (Analysis analysis_result) =>
                  match project_guide analysis_result with
                  | Some guide => save_file d guide_file (Ok guide) saved
                  | None => (saved, Ok tt)
                  end
              | Some (Combined text) =>
                  if contains "project_guide" text
                  then save_file d guide_file
                         (Raise (TypeError "string indices must be integers, not 'str'"))
                         saved
                  else (saved, Ok tt)
              | Some (Record_ _) => (saved, Ok tt)
              | None => (saved, Ok tt)
              end
          end
      end
  end.

Definition space_invaders_idea : string :=
  "space invaders arcade game with HTML5 canvas, player movement, shooting, enemy waves, collision detection, and scoring".

Definition space_invaders_audience : string :=
  "casual gamers who want a quick, fun arcade experience".

(** [run_space_invaders]: the run with the delay of 65 seconds, then the
    saving.  An error of the saving leaves the function in place of the
    mapping. *)
Definition run_space_invaders (d : disk)
  (analysis_answer tasks_answer : TaskOutput)
  (world : nat -> attempt pyfloat) (now timestamp : string)
  : list event * list fs_event * result (dict (entry pyfloat)) :=
  match run_crew 65 space_invaders_idea space_invaders_audience "1 week"
          analysis_answer tasks_answer world now with
  | (trace, Raise e) => (trace, [], Raise e)
  | (trace, Ok results) =>
      match save_results d timestamp results with
      | (saved, Raise e) => (trace, saved, Raise e)
      | (saved, Ok _) => (trace, saved, Ok results)
      end
  end.

End Design.

Arguments run_crew json_loads str_other {pyfloat}.
Arguments save_results {pyfloat}.
Arguments run_space_invaders json_loads str_other {pyfloat}.

End Pipeline.

(** ** project_improver.py *)

Module ProjectImprover.
Import PyStr Py TaskDesigner CrewRunner Pipeline.

(** What the file system answers: [os.path.exists], [os.listdir] and the
    reading of a file opened in text mode. *)
Record filesystem : Type := {
  path_exists : string -> bool;
  listdir : string -> result (list string);
  read_text : string -> result string
}.

(** [s.endswith(suffix)] *)
Fixpoint endswith (suffix s : string) : bool :=
  String.eqb suffix s ||
  match s with
  | EmptyString => false
  | String _ s' => endswith suffix s'
  end.

(** [file.endswith(('.html', '.js', '.css'))] *)
Definition is_web_file (file : string) : bool :=
  endswith ".html" file || endswith ".js" file || endswith ".css" file.

(** [os.path.join(a, b)] on a POSIX system. *)
Definition path_join (a b : string) : string :=
  if prefix "/" b then b
  else if String.eqb a "" || endswith "/" a then a ++ b
  else a ++ "/" ++ b.

(** The loop of [improve_project] over the listing; the state is the
    list of the files opened so far and [project_files].  A file that
    cannot be read ends the loop with its error; it has been opened. *)
Fixpoint read_files (fs : filesystem) (project_path : string) (files : list string)
  (st : list string * dict string) : list string * result (dict string) :=
  match files with
  | [] => (fst st, Ok (snd st))
  | file :: files' =>
      if is_web_file file then
        let file_path := path_join project_path file in
        match read_text fs file_path with
        | Ok content =>
            read_files fs project_path files'
              (List.app (fst st) [file_path], dict_set file content (snd st))
        | Raise e => (List.app (fst st) [file_path], Raise e)
        end
      else read_files fs project_path files' st
  end.

(** The first part of [improve_project]: the files it opens and the
    dictionary it fills. *)
Definition read_project_files (fs : filesystem) (project_path : string)
  : list string * result (dict string) :=
  if path_exists fs project_path then
    match listdir fs project_path with
    | Ok files => read_files fs project_path files ([], [])
    | Raise e => ([], Raise e)
    end
  else ([], Ok []).

Section Improve.

(** [repr] of a list of strings, as the f-string prints
    [list(project_files.keys())]. *)
Variable repr_names : list string -> string.

Definition project_context (project_files : dict string) (improvement_request : string)
  : string :=
  nl ++
  "    EXISTING PROJECT IMPROVEMENT:" ++ nl ++
  nl ++
  "    Current Project Files: " ++ repr_names (keys project_files) ++ nl ++
  nl ++
  "    Improvement Request: " ++ improvement_request ++ nl ++
  nl ++
  "    Instructions: Analyze the existing code and implement the requested improvements." ++ nl ++
  "    Focus on enhancing the existing functionality rather than rebuilding from scratch." ++ nl ++
  "    Maintain compatibility with the current project structure." ++ nl ++
  "    ".

Variable json_loads : string -> result pyval.
Variable str_other : pyval -> string.
Variable pyfloat : Type.
Variable format_1f : pyfloat -> string.

(** [improve_project]: the files opened, what the runner did, and what
    is returned or raised. *)
Definition improve_project (fs : filesystem)
  (project_path improvement_request target_audience : string)
  (analysis_answer tasks_answer : TaskOutput)
  (world : nat -> attempt pyfloat) (now : string)
  : list string * list event * result (dict (entry pyfloat)) :=
  match read_project_files fs project_path with
  | (opened, Raise e) => (opened, [], Raise e)
  | (opened, Ok project_files) =>
      let '(trace, r) :=
        run_crew json_loads str_other format_1f 65
          (project_context project_files improvement_request)
          target_audience "3-5 days" analysis_answer tasks_answer world now in
      (opened, trace, r)
  end.

(** Why the command line entry point leaves with status 1. *)
Inductive exit_reason : Type := Usage | PathNotFound.

(** The block under [if __name__ == "__main__"], [argv] being
    [sys.argv]: an exit with status 1, or the improvement. *)
Definition main (argv : list string) (fs : filesystem)
  (analysis_answer tasks_answer : TaskOutput)
  (world : nat -> attempt pyfloat) (now : string)
  : exit_reason + list string * list event * result (dict (entry pyfloat)) :=
  match argv with
  | _ :: project_path :: improvement_request :: more =>
      let target_audience :=
        match more with
        | a :: _ => a
        | [] => "general users"
        end in
      if path_exists fs project_path
      then inr (improve_project fs project_path improvement_request target_audience
                  analysis_answer tasks_answer world now)
      else inl PathNotFound
  | _ => inl Usage
  end.

End Improve.

Arguments improve_project repr_names json_loads str_other {pyfloat}.
Arguments main repr_names json_loads str_other {pyfloat}.

End ProjectImprover.

(** ** More descriptions *)

Module MoreSpec.
Import PyStr Py TaskDesigner CrewRunner ExtractorSpec RunnerSpec.

(** The line sets a field: it carries one of the three field
    markers. *)
Definition sets_field (line : string) : bool :=
  match field_of_line line with
  | Some _ => true
  | None => false
  end.

Definition is_str (v : pyval) : bool :=
  match v with
  | PStr _ => true
  | _ => false
  end.

(** The four keys that the line heuristic writes. *)
Definition is_text_key (k : string) : bool :=
  String.eqb k "name" || String.eqb k "description" ||
  String.eqb k "expected_output" || String.eqb k "success_criteria".

(** A record with those keys only and strings for values. *)
Definition text_record (t : task) : bool :=
  forallb (fun kv => is_text_key (fst kv) && is_str (snd kv)) t.

(** The name of the task is a string, or is absent. *)
Definition name_is_str (t : task) : bool :=
  is_str (get t "name" (PStr "unnamed")).

(** The seconds slept during a run. *)
Fixpoint total_sleep (trace : list event) : Z :=
  match trace with
  | [] => 0
  | Attempt _ :: trace' => total_sleep trace'
  | Sleep _ _ seconds :: trace' => seconds + total_sleep trace'
  end.

(** A text without its last character. *)
Fixpoint but_last (s : string) : string :=
  match s with
  | EmptyString => EmptyString
  | String c s' =>
      match s' with
      | EmptyString => EmptyString
      | String _ _ => String c (but_last s')
      end
  end.

(** The task succeeded and is not the last of [total] tasks. *)
Definition succeeded_not_last {pyfloat : Type} (world : nat -> attempt pyfloat)
  (total : nat) (it : nat * task) : bool :=
  negb (failed world it) && (fst it <? total).

(** The entries of a mapping that the report lists. *)
Definition listed {V} (kv : string * V) : bool :=
  negb (String.eqb (fst kv) "combined" || String.eqb (fst kv) "analysis").

(** A file system with a folder of four files for the closed examples;
    the style sheet cannot be read when [broken] is set, and every file
    that can be read holds [content]. *)
Definition example_fs (broken : bool) (content : string)
  : ProjectImprover.filesystem :=
  {| ProjectImprover.path_exists := fun p => String.eqb p "game";
     ProjectImprover.listdir :=
       fun _ => Ok ["index.html"; "notes.json"; "style.css"; "game.js"];
     ProjectImprover.read_text := fun p =>
       if broken && String.eqb p "game/style.css"
       then Raise (Exception "permission denied")
       else Ok content |}.

(** A file system that accepts every operation. *)
Definition accepting_disk : Pipeline.disk :=
  {| Pipeline.makedirs := fun _ => Ok tt;
     Pipeline.open_w := fun _ => Ok tt;
     Pipeline.write := fun _ _ => Ok tt |}.

(** A file system on which the folder cannot be made. *)
Definition refusing_disk : Pipeline.disk :=
  {| Pipeline.makedirs := fun _ => Raise (Exception "[Errno 13] Permission denied");
     Pipeline.open_w := fun _ => Ok tt;
     Pipeline.write := fun _ _ => Ok tt |}.

(** The file system accepts every operation asked of it. *)
Definition accepts (d : Pipeline.disk) : Prop :=
  (forall p, Pipeline.makedirs d p = Ok tt) /\
  (forall p, Pipeline.open_w d p = Ok tt) /\
  (forall p c, Pipeline.write d p c = Ok tt).

(** An instance of the rendering of a list of names. *)
Definition repr_plain (names : list string) : string :=
  "[" ++ String.concat ", " names ++ "]".

(** An instance of [str()] on values that are not strings. *)
Definition str_plain (v : pyval) : string := "<" ++ type_name v ++ ">".

End MoreSpec.

(** * Properties *)

Import PyStr Py TaskDesigner CrewRunner ExtractorSpec GuideSpec RunnerSpec.
Import Pipeline ProjectImprover MoreSpec.

(** ** Strings *)

Lemma append_assoc (a b c : string) : (a ++ b) ++ c = a ++ (b ++ c).
Proof.
  induction a as [|x a IH]; simpl; [reflexivity | now rewrite IH].
Qed.

Lemma append_nil_r (a : string) : a ++ "" = a.
Proof.
  induction a as [|x a IH]; simpl; [reflexivity | now rewrite IH].
Qed.

Lemma prefix_nonempty_nil (m : string) : m <> "" -> prefix m "" = false.
Proof.
  destruct m; [congruence | reflexivity].
Qed.

Lemma split_from_nonempty sep skip cur s : split_from sep skip cur s <> [].
Proof.
  revert skip cur; induction s as [|c s IH]; intros skip cur; cbn [split_from].
  - discriminate.
  - destruct skip; [destruct (prefix sep (String c s)) |];
      try discriminate; apply IH.
Qed.

(** A text that contains a marker splits into at least two pieces. *)
Lemma split_from_contains sep cur s :
  sep <> "" -> contains sep s = true ->
  exists p q rest, split_from sep 0 cur s = p :: q :: rest.
Proof.
  intros Hsep; revert cur; induction s as [|c s IH]; intros cur H.
  - cbn [contains] in H. rewrite (prefix_nonempty_nil _ Hsep) in H. discriminate.
  - cbn [contains] in H. cbn [split_from].
    destruct (prefix sep (String c s)) eqn:Hp.
    + destruct (split_from sep (String.length sep - 1) "" s) as [|q rest] eqn:E.
      * now apply split_from_nonempty in E.
      * now exists cur, q, rest.
    + cbn [orb] in H. apply IH. exact H.
Qed.

(** ** The line heuristic never fails *)

Lemma after_marker_ok marker line :
  marker <> "" -> contains marker line = true ->
  after_marker marker line = Ok (strip (nth 1 (split marker line) "")).
Proof.
  intros Hm Hc. unfold after_marker, split, index.
  destruct (split_from_contains marker "" line Hm Hc) as (p & q & rest & E).
  rewrite E. reflexivity.
Qed.

Lemma scan_line_eq tasks current_task line :
  scan_line (tasks, current_task) line =
  Ok (if is_name_line (strip line)
      then ((tasks ++ flush current_task)%list,
            [("name", PStr (text_after "TASK NAME:" (strip line)))])
      else (tasks, apply_field current_task (strip line))).
Proof.
  unfold scan_line, is_name_line, apply_field, field_of_line, flush, text_after.
  destruct (contains "TASK NAME:" (strip line)) eqn:H1.
  { rewrite after_marker_ok by (easy || discriminate). cbn [bind].
    destruct (truthy current_task); [reflexivity | now rewrite app_nil_r]. }
  destruct (contains "DESCRIPTION:" (strip line)) eqn:H2.
  { now rewrite after_marker_ok by (easy || discriminate). }
  destruct (contains "EXPECTED OUTPUT:" (strip line)) eqn:H3.
  { now rewrite after_marker_ok by (easy || discriminate). }
  destruct (contains "SUCCESS CRITERIA:" (strip line)) eqn:H4.
  { now rewrite after_marker_ok by (easy || discriminate). }
  reflexivity.
Qed.

Lemma truthy_dict_set {V} k (v : V) d : truthy (dict_set k v d) = true.
Proof.
  destruct d as [|[k' v'] d]; simpl; [reflexivity|].
  now destruct (String.eqb k k').
Qed.

Lemma truthy_apply_fields body : forall cur,
  truthy cur = true -> truthy (fold_left apply_field body cur) = true.
Proof.
  induction body as [|l body IH]; intros cur H; simpl; [exact H|].
  apply IH. unfold apply_field.
  destruct (field_of_line l) as [[k v]|]; [apply truthy_dict_set | exact H].
Qed.

(** The loop and the final flush, by blocks: the records are the record of
    the preamble, when there is one, and then one record per block. *)
Lemma scan_by_blocks raw_lines : forall tasks current_task,
  exists tasks' current_task',
    for_each scan_line raw_lines (tasks, current_task) = Ok (tasks', current_task') /\
    (tasks' ++ flush current_task')%list =
    (tasks ++ flush (fold_left apply_field (preamble (map strip raw_lines)) current_task)
       ++ map block_record (blocks (map strip raw_lines)))%list.
Proof.
  induction raw_lines as [|l ls IH]; intros tasks cur.
  - exists tasks, cur. split; [reflexivity|]. simpl. now rewrite app_nil_r.
  - cbn [for_each map preamble blocks]. rewrite scan_line_eq. cbn [bind].
    destruct (is_name_line (strip l)) eqn:Hn.
    + destruct (IH (tasks ++ flush cur)%list
                   [("name", PStr (text_after "TASK NAME:" (strip l)))])
        as (t' & c' & Hrun & Heq).
      exists t', c'. split; [exact Hrun|]. rewrite Heq.
      cbn [fold_left map]. rewrite <- app_assoc. do 2 f_equal.
      unfold block_record at 1. cbn [fst snd].
      unfold flush at 1. now rewrite truthy_apply_fields.
    + destruct (IH tasks (apply_field cur (strip l))) as (t' & c' & Hrun & Heq).
      exists t', c'. split; [exact Hrun|]. exact Heq.
Qed.

(** [_parse_text_tasks] returns, and what it returns. *)
Lemma parse_text_tasks_eq text :
  _parse_text_tasks text =
  Ok (let records :=
        (flush (fold_left apply_field (preamble (lines text)) [])
           ++ map block_record (blocks (lines text)))%list in
      if truthy records then records else _generate_fallback_tasks).
Proof.
  unfold _parse_text_tasks, lines. cbv zeta.
  destruct (scan_by_blocks (split nl text) [] []) as (t' & c' & Hrun & Heq).
  rewrite Hrun. cbn [bind]. cbn [List.app] in Heq. rewrite <- Heq.
  unfold flush. destruct (truthy c'); [reflexivity | now rewrite app_nil_r].
Qed.

Lemma parse_text_tasks_total text :
  exists tasks, _parse_text_tasks text = Ok tasks /\ tasks <> [].
Proof.
  rewrite parse_text_tasks_eq. cbv zeta.
  match goal with |- context [truthy ?r] => destruct r as [|t r'] eqn:E end.
  - exists _generate_fallback_tasks. split; [reflexivity | discriminate].
  - exists (t :: r'). split; [reflexivity | discriminate].
Qed.

(** The three ways through [generate_custom_tasks]. *)
Lemma generate_custom_tasks_cases json_loads result :
  match re_search (task_data result) with
  | Some json_match =>
      match json_loads json_match with
      | Ok v => generate_custom_tasks json_loads result = Ok v
      | Raise _ =>
          generate_custom_tasks json_loads result =
          (t <- _parse_text_tasks (str result) ;; Ok (tasks_value t))
      end
  | None =>
      generate_custom_tasks json_loads result =
      (t <- _parse_text_tasks (task_data result) ;; Ok (tasks_value t))
  end.
Proof.
  unfold generate_custom_tasks, try_json.
  destruct (re_search (task_data result)) as [m|].
  - destruct (json_loads m); reflexivity.
  - destruct (parse_text_tasks_total (task_data result)) as (t & -> & _).
    reflexivity.
Qed.

(** When the bracket match does not decode, the answer is the one of the
    line heuristic. *)
Lemma generate_custom_tasks_text json_loads result text :
  task_data result = text -> str result = text ->
  (forall m, re_search text = Some m -> exists e, json_loads m = Raise e) ->
  generate_custom_tasks json_loads result =
  (t <- _parse_text_tasks text ;; Ok (tasks_value t)).
Proof.
  intros Hd Hs Hj. pose proof (generate_custom_tasks_cases json_loads result) as H.
  rewrite Hd, Hs in H.
  destruct (re_search text) as [m|] eqn:E; [|exact H].
  destruct (Hj m eq_refl) as [e He]. now rewrite He in H.
Qed.

(** ** The bracket match *)

Lemma contains_char a c s :
  contains (String a "") (String c s) = Ascii.eqb a c || contains (String a "") s.
Proof.
  cbn [contains prefix]. destruct (ascii_dec a c) as [->|Hne].
  - rewrite Ascii.eqb_refl. now destruct s.
  - apply Ascii.eqb_neq in Hne. now rewrite Hne.
Qed.

Lemma upto_last_close_none s :
  contains "]" s = false -> upto_last_close s = None.
Proof.
  induction s as [|c s IH]; intros H; [reflexivity|].
  rewrite contains_char in H. apply orb_false_iff in H as [Hc Hs].
  cbn [upto_last_close]. rewrite (IH Hs).
  rewrite Ascii.eqb_sym in Hc. now rewrite Hc.
Qed.

Lemma upto_last_close_app body post :
  contains "]" post = false ->
  upto_last_close (body ++ "]" ++ post) = Some (body ++ "]").
Proof.
  intros Hp. induction body as [|c body IH].
  - cbn. now rewrite (upto_last_close_none _ Hp).
  - cbn [append upto_last_close] in *. now rewrite IH.
Qed.

Lemma re_search_skip pre rest :
  contains "[" pre = false -> re_search (pre ++ rest) = re_search rest.
Proof.
  induction pre as [|c pre IH]; intros H; [reflexivity|].
  rewrite contains_char in H. apply orb_false_iff in H as [Hc Hs].
  cbn [append re_search]. rewrite Ascii.eqb_sym in Hc. rewrite Hc. now apply IH.
Qed.

(** The match is the array when no opening bracket comes before it and no
    closing bracket after it. *)
Lemma re_search_embedded pre body post :
  contains "[" pre = false -> contains "]" post = false ->
  re_search (pre ++ ("[" ++ body ++ "]") ++ post) = Some ("[" ++ body ++ "]").
Proof.
  intros Hpre Hpost. rewrite (re_search_skip _ _ Hpre).
  rewrite !append_assoc. cbn [append re_search].
  change (body ++ String "]" post) with (body ++ "]" ++ post).
  now rewrite (upto_last_close_app body post Hpost).
Qed.

(** ** Blocks and fields *)

Lemma dict_get_set_eq {V} k (v : V) d : dict_get k (dict_set k v d) = Some v.
Proof.
  induction d as [|[k' v'] d IH]; simpl.
  - now rewrite String.eqb_refl.
  - destruct (String.eqb k k') eqn:E; simpl; rewrite E; [reflexivity | exact IH].
Qed.

Lemma dict_get_set_neq {V} k k' (v : V) d :
  k <> k' -> dict_get k (dict_set k' v d) = dict_get k d.
Proof.
  intros Hne. induction d as [|[k1 v1] d IH]; simpl.
  - apply String.eqb_neq in Hne. now rewrite Hne.
  - destruct (String.eqb k' k1) eqn:E; simpl.
    + apply String.eqb_eq in E. subst k1.
      apply String.eqb_neq in Hne. now rewrite Hne.
    + destruct (String.eqb k k1); [reflexivity | exact IH].
Qed.

Lemma dict_get_apply_field key cur l :
  dict_get key (apply_field cur l) =
  match field_of_line l with
  | Some (k, v) => if String.eqb key k then Some (PStr v) else dict_get key cur
  | None => dict_get key cur
  end.
Proof.
  unfold apply_field. destruct (field_of_line l) as [[k v]|]; [|reflexivity].
  destruct (String.eqb key k) eqn:E.
  - apply String.eqb_eq in E. subst. apply dict_get_set_eq.
  - apply String.eqb_neq in E. now apply dict_get_set_neq.
Qed.

(** A field of a record is what the last line of the block that sets it
    says, and is untouched when no line sets it. *)
Lemma dict_get_apply_fields key body : forall cur,
  dict_get key (fold_left apply_field body cur) =
  match last_value key body with
  | Some v => Some (PStr v)
  | None => dict_get key cur
  end.
Proof.
  induction body as [|l body IH]; intros cur; [reflexivity|].
  cbn [fold_left last_value]. rewrite IH.
  destruct (last_value key body); [reflexivity|].
  rewrite dict_get_apply_field.
  destruct (field_of_line l) as [[k v]|]; [|reflexivity].
  now destruct (String.eqb key k).
Qed.

Lemma field_of_line_key l k v :
  field_of_line l = Some (k, v) ->
  k = "description" \/ k = "expected_output" \/ k = "success_criteria".
Proof.
  unfold field_of_line.
  destruct (contains "DESCRIPTION:" l); [intros [= <- _]; auto|].
  destruct (contains "EXPECTED OUTPUT:" l); [intros [= <- _]; auto|].
  destruct (contains "SUCCESS CRITERIA:" l); [intros [= <- _]; auto|].
  discriminate.
Qed.

Lemma last_value_name body : last_value "name" body = None.
Proof.
  induction body as [|l body IH]; [reflexivity|].
  cbn [last_value]. rewrite IH.
  destruct (field_of_line l) as [[k v]|] eqn:E; [|reflexivity].
  apply field_of_line_key in E. now destruct E as [->|[->| ->]].
Qed.

Lemma blocks_heads ls : map fst (blocks ls) = filter is_name_line ls.
Proof.
  induction ls as [|l ls IH]; [reflexivity|].
  cbn [blocks filter]. destruct (is_name_line l); cbn [map fst]; now rewrite ?IH.
Qed.

(** Lines without a marker leave the record in progress as it is. *)
Lemma apply_fields_no_marker ls cur :
  forallb (fun l => negb (has_marker l)) ls = true ->
  fold_left apply_field ls cur = cur.
Proof.
  revert cur. induction ls as [|l ls IH]; intros cur H; [reflexivity|].
  cbn [forallb] in H. apply andb_true_iff in H as [Hl Hls].
  cbn [fold_left]. rewrite (IH _ Hls). unfold apply_field.
  unfold has_marker in Hl. destruct (field_of_line l); [|reflexivity].
  now rewrite orb_true_r in Hl.
Qed.

Lemma blocks_no_marker ls :
  forallb (fun l => negb (has_marker l)) ls = true ->
  blocks ls = [] /\ preamble ls = ls.
Proof.
  induction ls as [|l ls IH]; intros H; [now split|].
  cbn [forallb] in H. apply andb_true_iff in H as [Hl Hls].
  destruct (IH Hls) as [Hb Hp]. cbn [blocks preamble].
  unfold has_marker in Hl. destruct (is_name_line l); [discriminate|].
  now rewrite Hb, Hp.
Qed.

(** ** Claims about the task extractor *)

(** C1, as stated, fails: an opening bracket in the text before the array
    makes the greedy match start there; the match is not JSON and the
    answer degrades to the fixed tasks. *)
Lemma embedded_array_missed_after_bracket :
  let array := "[{" ++ Json.quoted "name" ++ ": " ++ Json.quoted "A" ++ "}]" in
  let text := "Tasks [see below]: " ++ array in
  Json.loads array = Ok (PList [PDict [("name", PStr "A")]]) /\
  re_search text = Some ("[see below]: " ++ array) /\
  generate_custom_tasks Json.loads (text_output text)
    = Ok (tasks_value _generate_fallback_tasks) /\
  generate_custom_tasks Json.loads (text_output text)
    <> Ok (PList [PDict [("name", PStr "A")]]).
Proof.
  cbv zeta. repeat split; try (vm_compute; reflexivity).
  vm_compute. discriminate.
Qed.

(** C1, amended: when the text before the array has no opening bracket
    and the text after it has no closing bracket, the extractor returns
    the value that the array decodes to, as it is. *)
Theorem extractor_decodes_embedded_array
  (json_loads : string -> result pyval) (result : TaskOutput)
  (pre body post : string) (v : pyval) :
  task_data result = pre ++ ("[" ++ body ++ "]") ++ post ->
  contains "[" pre = false ->
  contains "]" post = false ->
  json_loads ("[" ++ body ++ "]") = Ok v ->
  generate_custom_tasks json_loads result = Ok v.
Proof.
  intros Hd Hpre Hpost Hv.
  pose proof (generate_custom_tasks_cases json_loads result) as H.
  rewrite Hd, (re_search_embedded pre body post Hpre Hpost), Hv in H.
  exact H.
Qed.

Lemma extractor_decodes_embedded_array_witness :
  generate_custom_tasks Json.loads
    (text_output
       ("Here are the tasks: " ++
        ("[" ++ ("{" ++ Json.quoted "name" ++ ": " ++ Json.quoted "Build UI" ++ ", "
                     ++ Json.quoted "description" ++ ": " ++ Json.quoted "Draw it" ++ "}")
             ++ "]") ++
        " Good luck."))
  = Ok (PList [PDict [("name", PStr "Build UI"); ("description", PStr "Draw it")]]).
Proof.
  apply (extractor_decodes_embedded_array Json.loads _
           "Here are the tasks: "
           ("{" ++ Json.quoted "name" ++ ": " ++ Json.quoted "Build UI" ++ ", "
                ++ Json.quoted "description" ++ ": " ++ Json.quoted "Draw it" ++ "}")
           " Good luck.");
    reflexivity.
Defined.

(** C2, as stated, fails in three ways.  A field line before the first
    name line makes a record of its own; two markers on one line start one
    record; and a text with no marker at all gets the three fixed
    records, not none. *)
Lemma records_are_not_counted_by_markers :
  (let text := "DESCRIPTION: x" ++ nl ++ "TASK NAME: a" in
   occurrences "TASK NAME:" text = 1 /\
   re_search text = None /\
   generate_custom_tasks Json.loads (text_output text)
     = Ok (tasks_value [[("description", PStr "x")]; [("name", PStr "a")]])) /\
  (let text := "TASK NAME: a TASK NAME: b" in
   occurrences "TASK NAME:" text = 2 /\
   re_search text = None /\
   generate_custom_tasks Json.loads (text_output text)
     = Ok (tasks_value [[("name", PStr "a")]])) /\
  (let text := "nothing to see" in
   occurrences "TASK NAME:" text = 0 /\
   re_search text = None /\
   exists t1 t2 t3,
     generate_custom_tasks Json.loads (text_output text)
       = Ok (tasks_value [t1; t2; t3])).
Proof.
  cbv zeta. repeat split; try (vm_compute; reflexivity).
  do 3 eexists. vm_compute. reflexivity.
Qed.

(** C2, amended: take a text whose bracket match, if any, does not decode,
    in which at least one line carries the marker TASK NAME: and no line
    before the first such line carries a field marker.  The extractor
    returns one record per line carrying TASK NAME:, in the order of the
    lines.  The name of a record is the text between the first occurrence
    of the marker on its line and the next occurrence of the marker, or
    the end of the line, stripped.  Each of description, expected_output
    and success_criteria is the text so taken, for its own marker, from
    the last line that sets the field between the name line of the record
    and the next name line, and is absent when no line sets it. *)
Theorem one_record_per_name_line
  (json_loads : string -> result pyval) (result : TaskOutput) (text : string) :
  task_data result = text ->
  str result = text ->
  (forall m, re_search text = Some m -> exists e, json_loads m = Raise e) ->
  filter is_name_line (lines text) <> [] ->
  forallb (fun l => negb (has_marker l)) (preamble (lines text)) = true ->
  exists records,
    generate_custom_tasks json_loads result = Ok (tasks_value records) /\
    List.length records = List.length (filter is_name_line (lines text)) /\
    map fst (blocks (lines text)) = filter is_name_line (lines text) /\
    forall j head body,
      nth_error (blocks (lines text)) j = Some (head, body) ->
      exists record,
        nth_error records j = Some record /\
        dict_get "name" record = Some (PStr (text_after "TASK NAME:" head)) /\
        dict_get "description" record
          = option_map PStr (last_value "description" body) /\
        dict_get "expected_output" record
          = option_map PStr (last_value "expected_output" body) /\
        dict_get "success_criteria" record
          = option_map PStr (last_value "success_criteria" body).
Proof.
  intros Hd Hs Hj Hn Hpre.
  rewrite (generate_custom_tasks_text json_loads result text Hd Hs Hj).
  rewrite parse_text_tasks_eq. cbv zeta. cbn [bind].
  rewrite (apply_fields_no_marker _ _ Hpre). cbn [flush truthy List.app].
  pose proof (blocks_heads (lines text)) as Hh.
  destruct (blocks (lines text)) as [|b bs] eqn:Hb.
  { cbn [map] in Hh. now rewrite <- Hh in Hn. }
  rewrite <- Hb in *. exists (map block_record (blocks (lines text))).
  assert (Ht : truthy (map block_record (blocks (lines text))) = true)
    by now rewrite Hb.
  rewrite Ht. split; [reflexivity|]. split.
  { now rewrite <- Hh, !length_map. }
  split; [exact Hh|].
  intros j head body Hnth. exists (block_record (head, body)).
  split; [now rewrite nth_error_map, Hnth|].
  unfold block_record. cbn [fst snd]. rewrite !dict_get_apply_fields.
  rewrite last_value_name. cbn [dict_get String.eqb Ascii.eqb Bool.eqb].
  repeat split; match goal with |- context [last_value ?k body] =>
                  now destruct (last_value k body) end.
Qed.

Lemma one_record_per_name_line_witness :
  let text :=
    "Plan" ++ nl ++
    "1. TASK NAME: Setup" ++ nl ++
    "   DESCRIPTION: make the folders" ++ nl ++
    "   DESCRIPTION: make the folders and files" ++ nl ++
    "2. TASK NAME: Build" ++ nl ++
    "   SUCCESS CRITERIA: it runs" in
  exists records,
    generate_custom_tasks Json.loads (text_output text) = Ok (tasks_value records) /\
    List.length records = 2.
Proof.
  cbv zeta.
  destruct (one_record_per_name_line Json.loads
              (text_output ("Plan" ++ nl ++
                            "1. TASK NAME: Setup" ++ nl ++
                            "   DESCRIPTION: make the folders" ++ nl ++
                            "   DESCRIPTION: make the folders and files" ++ nl ++
                            "2. TASK NAME: Build" ++ nl ++
                            "   SUCCESS CRITERIA: it runs"))
              _ eq_refl eq_refl) as (records & Hrun & Hlen & _).
  - intros m H. vm_compute in H. discriminate.
  - vm_compute. discriminate.
  - vm_compute. reflexivity.
  - exists records. split; [exact Hrun | exact Hlen].
Defined.

(** C3, as stated, fails: a text without TASK NAME: but with a field
    marker yields the record made of that field, not the fixed tasks. *)
Lemma field_line_alone_is_a_record :
  let text := "DESCRIPTION: write the parser" in
  occurrences "TASK NAME:" text = 0 /\
  re_search text = None /\
  generate_custom_tasks Json.loads (text_output text)
    = Ok (tasks_value [[("description", PStr "write the parser")]]) /\
  generate_custom_tasks Json.loads (text_output text)
    <> Ok (tasks_value _generate_fallback_tasks).
Proof.
  cbv zeta. repeat split; try (vm_compute; reflexivity).
  vm_compute. discriminate.
Qed.

(** C3, amended: for a text whose bracket match, if any, does not decode
    and in which no line carries any of the four markers, the extractor
    returns the three fixed records, named Project Setup, Core
    Implementation and Testing and Polish in that order. *)
Theorem fixed_tasks_when_no_marker
  (json_loads : string -> result pyval) (result : TaskOutput) (text : string) :
  task_data result = text ->
  str result = text ->
  (forall m, re_search text = Some m -> exists e, json_loads m = Raise e) ->
  forallb (fun l => negb (has_marker l)) (lines text) = true ->
  generate_custom_tasks json_loads result = Ok (tasks_value _generate_fallback_tasks) /\
  map (dict_get "name") _generate_fallback_tasks =
    [ Some (PStr "Project Setup");
      Some (PStr "Core Implementation");
      Some (PStr "Testing and Polish") ] /\
  map (dict_get "description") _generate_fallback_tasks =
    [ Some (PStr "Set up basic project structure and files");
      Some (PStr "Implement main functionality");
      Some (PStr "Test functionality and add finishing touches") ] /\
  map (dict_get "expected_output") _generate_fallback_tasks =
    [ Some (PStr "Working project foundation");
      Some (PStr "Working core features");
      Some (PStr "Polished, working application") ] /\
  map (dict_get "success_criteria") _generate_fallback_tasks =
    [ Some (PStr "Files can be opened and basic structure exists");
      Some (PStr "Main features function as expected");
      Some (PStr "Application works without errors") ].
Proof.
  intros Hd Hs Hj Hm. split; [|repeat split].
  rewrite (generate_custom_tasks_text json_loads result text Hd Hs Hj).
  rewrite parse_text_tasks_eq. cbv zeta.
  destruct (blocks_no_marker _ Hm) as [Hb Hp]. rewrite Hb, Hp.
  now rewrite (apply_fields_no_marker _ _ Hm).
Qed.

Lemma fixed_tasks_when_no_marker_witness :
  generate_custom_tasks Json.loads
    (text_output ("I could not come up with tasks [sorry" ++ nl ++ "about that]."))
  = Ok (tasks_value _generate_fallback_tasks).
Proof.
  apply (fixed_tasks_when_no_marker Json.loads
           (text_output ("I could not come up with tasks [sorry" ++ nl ++ "about that]."))
           ("I could not come up with tasks [sorry" ++ nl ++ "about that].")
           eq_refl eq_refl).
  - intros m H. vm_compute in H. injection H as <-. now exists JSONDecodeError.
  - vm_compute. reflexivity.
Defined.

(** ** Claims about the guide *)

Lemma fold_left_append {A} (f : A -> string) l : forall init,
  fold_left (fun acc a => acc ++ f a) l init = init ++ glue (map f l).
Proof.
  induction l as [|a l IH]; intros init; cbn [fold_left map glue fold_right].
  - now rewrite append_nil_r.
  - rewrite IH. now rewrite append_assoc.
Qed.

Lemma fmt_get str_other task key placeholder :
  fmt str_other (get task key (PStr placeholder))
  = field_text str_other task key placeholder.
Proof.
  unfold get, field_text. now destruct (dict_get key task).
Qed.

Lemma guide_task_section str_other i task :
  guide_task str_other i task = task_section str_other i task.
Proof.
  unfold guide_task, task_section. rewrite !fmt_get.
  cbn [documented_fields map glue fold_right field_paragraph].
  rewrite !append_assoc. reflexivity.
Qed.

Lemma map_fst_enumerate {A} (l : list A) : forall start,
  map fst (enumerate start l) = seq start (List.length l).
Proof.
  unfold enumerate. induction l as [|a l IH]; intros start; [reflexivity|].
  cbn [List.length seq combine map fst]. now rewrite IH.
Qed.

Lemma map_snd_enumerate {A} (l : list A) : forall start,
  map snd (enumerate start l) = l.
Proof.
  unfold enumerate. induction l as [|a l IH]; intros start; [reflexivity|].
  cbn [List.length seq combine map snd]. now rewrite IH.
Qed.

(** C7: the guide is its header, then one section per task in the order
    of the list, numbered from 1, then the fixed notes.  A section prints
    the name and then the description, the expected output, the success
    criteria, the dependencies and the complexity, each with its
    placeholder when the key is absent.  For a task with a name and a
    description only, the four other fields show their placeholders. *)
Theorem guide_sections_in_documented_order
  (str_other : pyval -> string) (analysis_result : AnalysisResult)
  (custom_tasks : list task) :
  create_project_guide str_other analysis_result custom_tasks
  = guide_header analysis_result custom_tasks
    ++ glue (map (fun it => task_section str_other (fst it) (snd it))
                 (enumerate 1 custom_tasks))
    ++ guide_footer
  /\ map fst (enumerate 1 custom_tasks) = seq 1 (List.length custom_tasks)
  /\ map snd (enumerate 1 custom_tasks) = custom_tasks
  /\ (forall i task,
        task_section str_other i task
        = "### Task " ++ str_of_nat i ++ ": "
            ++ field_text str_other task "name" "Unnamed Task" ++ nl ++ nl ++
          "**Description:** "
            ++ field_text str_other task "description" "No description provided"
            ++ nl ++ nl ++
          "**Expected Output:** "
            ++ field_text str_other task "expected_output" "No output specified"
            ++ nl ++ nl ++
          "**Success Criteria:** "
            ++ field_text str_other task "success_criteria" "No criteria specified"
            ++ nl ++ nl ++
          "**Dependencies:** "
            ++ field_text str_other task "dependencies" "None specified"
            ++ nl ++ nl ++
          "**Complexity:** "
            ++ field_text str_other task "estimated_complexity" "Unknown"
            ++ nl ++ nl ++
          "---" ++ nl ++ nl)
  /\ (forall i name description,
        task_section str_other i
          [("name", PStr name); ("description", PStr description)]
        = "### Task " ++ str_of_nat i ++ ": " ++ name ++ nl ++ nl ++
          "**Description:** " ++ description ++ nl ++ nl ++
          "**Expected Output:** No output specified" ++ nl ++ nl ++
          "**Success Criteria:** No criteria specified" ++ nl ++ nl ++
          "**Dependencies:** None specified" ++ nl ++ nl ++
          "**Complexity:** Unknown" ++ nl ++ nl ++
          "---" ++ nl ++ nl).
Proof.
  repeat split.
  - unfold create_project_guide.
    rewrite (fold_left_append (fun it => guide_task str_other (fst it) (snd it))).
    rewrite append_assoc. do 3 f_equal.
    apply map_ext. intros [i t]. apply guide_task_section.
  - apply map_fst_enumerate.
  - apply map_snd_enumerate.
  - intros i task. unfold task_section.
    cbn [documented_fields map glue fold_right field_paragraph].
    rewrite !append_assoc. reflexivity.
  - intros i name description. unfold task_section.
    cbn [documented_fields map glue fold_right field_paragraph].
    unfold field_text. cbn [dict_get String.eqb Ascii.eqb Bool.eqb fmt].
    rewrite !append_assoc. reflexivity.
Qed.

(** ** Keys of the results mapping *)

Lemma all_digits_string_of_uint d : all_digits (NilEmpty.string_of_uint d) = true.
Proof.
  induction d; cbn [NilEmpty.string_of_uint all_digits]; rewrite ?IHd; reflexivity.
Qed.

Lemma all_digits_str_of_nat n : all_digits (str_of_nat n) = true.
Proof.
  unfold str_of_nat, NilZero.string_of_uint.
  destruct (Nat.to_uint n) eqn:E; try reflexivity;
    rewrite <- E; apply all_digits_string_of_uint.
Qed.

Lemma str_of_nat_inj i j : str_of_nat i = str_of_nat j -> i = j.
Proof.
  unfold str_of_nat. intros H.
  assert (Hn : forall n, Nat.to_uint n <> Nil).
  { intros n. rewrite <- (DecimalNat.Unsigned.of_to n) at 1.
    rewrite DecimalNat.Unsigned.to_of. apply DecimalFacts.unorm_nonnil. }
  pose proof (NilZero.usu _ (Hn i)) as Hi.
  pose proof (NilZero.usu _ (Hn j)) as Hj.
  rewrite H, Hj in Hi. injection Hi as Hi.
  now apply DecimalNat.Unsigned.to_uint_inj.
Qed.

(** Two runs of digits followed by an underscore: when the texts agree,
    so do the digits. *)
Lemma digits_before_underscore d1 : forall d2 a b,
  all_digits d1 = true -> all_digits d2 = true ->
  d1 ++ "_" ++ a = d2 ++ "_" ++ b -> d1 = d2.
Proof.
  induction d1 as [|c d1 IH]; intros [|c2 d2] a b H1 H2 E.
  - reflexivity.
  - cbn in E. injection E as Ec _. subst c2. cbn in H2. discriminate.
  - cbn in E. injection E as Ec _. subst c. cbn in H1. discriminate.
  - cbn [append] in E. injection E as Ec E. subst c2.
    cbn [all_digits] in H1, H2.
    apply andb_true_iff in H1 as [_ H1]. apply andb_true_iff in H2 as [_ H2].
    f_equal. exact (IH d2 a b H1 H2 E).
Qed.

Lemma key_of_index_inj i j k : key_of_index i k -> key_of_index j k -> i = j.
Proof.
  intros [a ->] [b E]. cbn [append] in E. injection E as E.
  apply str_of_nat_inj.
  exact (digits_before_underscore _ _ _ _ (all_digits_str_of_nat i)
           (all_digits_str_of_nat j) E).
Qed.

Lemma dict_set_fresh {V} k (v : V) d :
  ~ In k (keys d) -> dict_set k v d = (d ++ [(k, v)])%list.
Proof.
  induction d as [|[k' v'] d IH]; intros H; [reflexivity|].
  cbn [dict_set List.app]. cbn [keys map fst In] in H.
  destruct (String.eqb k k') eqn:E.
  - apply String.eqb_eq in E. subst. exfalso. apply H. now left.
  - f_equal. apply IH. intros Hin. apply H. now right.
Qed.

Lemma keys_app {V} (d1 d2 : dict V) :
  keys (List.app d1 d2) = List.app (keys d1) (keys d2).
Proof. apply map_app. Qed.

Lemma is_task_key_app rest : is_task_key ("task_" ++ rest) = true.
Proof.
  unfold is_task_key. cbn. now destruct rest.
Qed.

Lemma task_key_not_reserved k :
  is_task_key k = true ->
  String.eqb k "combined" || String.eqb k "analysis" = false.
Proof.
  unfold is_task_key. destruct k as [|c k]; [discriminate|].
  cbn [prefix]. destruct (ascii_dec "t" c) as [<-|]; [|discriminate].
  reflexivity.
Qed.

Section RunnerFacts.

Variable pyfloat : Type.
Variable format_1f : pyfloat -> string.
Variable delay_between_chunks : Z.
Variable total : nat.
Variable world : nat -> attempt pyfloat.

Lemma expected_record_key it :
  key_of_index (fst it) (fst (expected_record world it)).
Proof.
  destruct it as [i task]. unfold expected_record, key_of_index. cbn [fst].
  destruct (task_outcome (world i)) as [r t|msg].
  - destruct (slug (get task "name" (PStr "unnamed"))) as [s|e]; cbn [fst].
    + now exists s.
    + now exists "failed".
  - now exists "failed".
Qed.

(** One iteration, when the delay is not negative and the description
    can be measured: it stores the expected record and does the expected
    things, and the loop goes on. *)
Lemma run_task_spec results trace it :
  (0 <= delay_between_chunks)%Z ->
  description_sized (snd it) = true ->
  run_task delay_between_chunks total world (results, trace) it =
  ((dict_set (fst (expected_record world it)) (snd (expected_record world it)) results,
    (trace ++ expected_events delay_between_chunks total world it)%list),
   Ok tt).
Proof.
  intros Hd Hs. destruct it as [i task]. cbn [snd] in Hs.
  unfold run_task, expected_record, expected_events, failure_of, tokens.
  unfold description_sized in Hs. cbn [fst snd].
  destruct (len (get task "description" (PStr ""))) as [n|e]; [|discriminate].
  unfold try_task.
  destruct (task_outcome (world i)) as [r t|msg].
  - destruct (slug (get task "name" (PStr "unnamed"))) as [s|e].
    + cbn [fst snd]. destruct (i <? total).
      * unfold sleep. apply Z.ltb_ge in Hd. rewrite Hd.
        now rewrite <- app_assoc.
      * reflexivity.
    + unfold except_task, extra_delay, sleep. cbn [fst snd Z.ltb Z.compare].
      destruct (contains "RateLimitError" (exn_str e)); cbn [fst];
        now rewrite <- ?app_assoc.
  - unfold except_task, extra_delay, sleep. cbn [exn_str fst snd Z.ltb Z.compare].
    destruct (contains "RateLimitError" msg); cbn [fst];
      now rewrite <- ?app_assoc.
Qed.

(** The loop, from any state whose keys belong to earlier tasks. *)
Lemma run_tasks_spec tasks : forall start results trace,
  (0 <= delay_between_chunks)%Z ->
  forallb description_sized tasks = true ->
  (forall k, In k (keys results) -> exists j, j < start /\ key_of_index j k) ->
  run_tasks delay_between_chunks total world (enumerate start tasks) (results, trace) =
  (((results ++ map (expected_record world) (enumerate start tasks))%list,
    (trace ++ flat_map (expected_events delay_between_chunks total world)
                       (enumerate start tasks))%list),
   Ok tt).
Proof.
  induction tasks as [|task tasks IH]; intros start results trace Hd Hs Hk.
  - cbn. now rewrite !app_nil_r.
  - cbn [forallb] in Hs. apply andb_true_iff in Hs as [Hs1 Hs2].
    change (enumerate start (task :: tasks))
      with ((start, task) :: enumerate (S start) tasks).
    cbn [run_tasks]. rewrite (run_task_spec results trace (start, task) Hd Hs1).
    pose proof (expected_record_key (start, task)) as Hkey. cbn [fst] in Hkey.
    rewrite dict_set_fresh.
    2:{ intros Hin. destruct (Hk _ Hin) as (j & Hj & Hjk).
        pose proof (key_of_index_inj _ _ _ Hjk Hkey). lia. }
    rewrite IH; [| exact Hd | exact Hs2 |].
    + cbn [map flat_map]. rewrite <- !app_assoc.
      now destruct (expected_record world (start, task)).
    + intros k Hin. rewrite keys_app in Hin. apply in_app_or in Hin as [Hin|Hin].
      * destruct (Hk _ Hin) as (j & Hj & Hjk). exists j. split; [lia | exact Hjk].
      * cbn in Hin. destruct Hin as [<-|[]]. exists start. split; [lia | exact Hkey].
Qed.

(** Every key that the loop writes starts with the word task. *)
Lemma keys_dict_set_task {V} k (v : V) d :
  is_task_key k = true ->
  forallb is_task_key (keys d) = true ->
  forallb is_task_key (keys (dict_set k v d)) = true.
Proof.
  intros Hk. induction d as [|[k' v'] d IH]; intros H.
  - cbn [dict_set keys map fst forallb]. now rewrite Hk.
  - cbn [keys map fst forallb] in H. apply andb_true_iff in H as [H1 H2].
    cbn [dict_set]. destruct (String.eqb k k'); cbn [keys map fst forallb].
    + now rewrite H1.
    + rewrite H1. cbn [andb]. now apply IH.
Qed.

Lemma run_task_keys results trace it results' trace' r :
  forallb is_task_key (keys results) = true ->
  run_task delay_between_chunks total world (results, trace) it
    = ((results', trace'), r) ->
  forallb is_task_key (keys results') = true.
Proof.
  intros Hk. destruct it as [i task]. unfold run_task.
  destruct (len (get task "description" (PStr ""))) as [n|e].
  2:{ now intros [= <- _ _]. }
  unfold try_task.
  assert (Hf : forall v (d : dict (record pyfloat)),
             forallb is_task_key (keys d) = true ->
             forallb is_task_key (keys (dict_set (failed_key i) v d)) = true).
  { intros v d. apply keys_dict_set_task. apply is_task_key_app. }
  assert (Hs : forall s v (d : dict (record pyfloat)),
             forallb is_task_key (keys d) = true ->
             forallb is_task_key (keys (dict_set (success_key i s) v d)) = true).
  { intros s v d. apply keys_dict_set_task. apply is_task_key_app. }
  destruct (task_outcome (world i)) as [res t|msg].
  - destruct (slug (get task "name" (PStr "unnamed"))) as [s|e].
    + destruct (i <? total).
      * unfold sleep. destruct (delay_between_chunks <? 0)%Z.
        -- unfold except_task.
           destruct (contains "RateLimitError" _); intros [= <- _ _];
             apply Hf; now apply Hs.
        -- intros [= <- _ _]. now apply Hs.
      * intros [= <- _ _]. now apply Hs.
    + unfold except_task.
      destruct (contains "RateLimitError" _); intros [= <- _ _]; now apply Hf.
  - unfold except_task.
    destruct (contains "RateLimitError" _); intros [= <- _ _]; now apply Hf.
Qed.

Lemma run_tasks_keys items : forall results trace results' trace' r,
  forallb is_task_key (keys results) = true ->
  run_tasks delay_between_chunks total world items (results, trace)
    = ((results', trace'), r) ->
  forallb is_task_key (keys results') = true.
Proof.
  induction items as [|it items IH]; intros results trace results' trace' r Hk.
  - now intros [= <- _ _].
  - cbn [run_tasks].
    destruct (run_task delay_between_chunks total world (results, trace) it)
      as [[results1 trace1] [[]|e]] eqn:E.
    + apply IH. exact (run_task_keys _ _ _ _ _ _ Hk E).
    + intros [= <- _ _]. exact (run_task_keys _ _ _ _ _ _ Hk E).
Qed.

End RunnerFacts.

(** ** The compilation of the results *)

Lemma truthy_filter {A} (f : A -> bool) l : truthy (filter f l) = existsb f l.
Proof.
  induction l as [|a l IH]; [reflexivity|].
  cbn [filter existsb]. destruct (f a); [reflexivity | exact IH].
Qed.

Lemma dict_get_none {V} k (d : dict V) : ~ In k (keys d) -> dict_get k d = None.
Proof.
  induction d as [|[k' v'] d IH]; intros H; [reflexivity|].
  cbn [dict_get]. cbn [keys map fst In] in H.
  destruct (String.eqb k k') eqn:E.
  - apply String.eqb_eq in E. subst. exfalso. apply H. now left.
  - apply IH. intros Hin. apply H. now right.
Qed.

Lemma dict_get_app_fresh {V} k (d1 d2 : dict V) :
  ~ In k (keys d1) -> dict_get k (List.app d1 d2) = dict_get k d2.
Proof.
  induction d1 as [|[k' v'] d1 IH]; intros H; [reflexivity|].
  cbn [List.app dict_get]. cbn [keys map fst In] in H.
  destruct (String.eqb k k') eqn:E.
  - apply String.eqb_eq in E. subst. exfalso. apply H. now left.
  - apply IH. intros Hin. apply H. now right.
Qed.

Lemma dict_get_in {V} k (v : V) (d : dict V) :
  NoDup (keys d) -> In (k, v) d -> dict_get k d = Some v.
Proof.
  induction d as [|[k' v'] d IH]; intros Hnd Hin; [destruct Hin|].
  cbn [keys map fst] in Hnd. inversion Hnd as [|? ? Hnotin Hnd']; subst.
  cbn [dict_get]. destruct Hin as [[= -> ->]|Hin].
  - now rewrite String.eqb_refl.
  - destruct (String.eqb k k') eqn:E.
    + apply String.eqb_eq in E. subst. exfalso. apply Hnotin.
      change k' with (fst (k', v)). now apply in_map.
    + now apply IH.
Qed.

Lemma task_keys_not_reserved ks :
  forallb is_task_key ks = true -> ~ In "combined" ks /\ ~ In "analysis" ks.
Proof.
  intros H. rewrite forallb_forall in H.
  split; intros Hin; apply H in Hin; discriminate.
Qed.

Section CompilationFacts.

Variable pyfloat : Type.
Variable format_1f : pyfloat -> string.

Lemma keys_as_entries (results : dict (record pyfloat)) :
  keys (as_entries results) = keys results.
Proof.
  unfold keys, as_entries. rewrite map_map. now apply map_ext.
Qed.

Lemma records_of_as_entries_all (results : dict (record pyfloat)) extra design :
  records_of (List.app (List.app (as_entries results) [("combined", Combined extra)])
                [("analysis", Analysis design)]) = results.
Proof.
  induction results as [|[k r] results IH]; [reflexivity|].
  cbn [as_entries map List.app records_of fst snd]. f_equal. exact IH.
Qed.

Lemma records_of_as_entries (results : dict (record pyfloat)) :
  records_of (as_entries results) = results.
Proof.
  induction results as [|[k r] results IH]; [reflexivity|].
  cbn [as_entries map records_of fst snd]. f_equal. exact IH.
Qed.

Lemma combine_task_lines k (r : record pyfloat) :
  combine_task format_1f k r = record_lines format_1f (k, r).
Proof. now destruct r. Qed.

Lemma combine_loop results : forall combined,
  forallb is_task_key (keys results) = true ->
  fold_left
    (fun combined (kv : string * record pyfloat) =>
       let '(task_name, task_data) := kv in
       if String.eqb task_name "combined" || String.eqb task_name "analysis"
       then combined
       else List.app combined (combine_task format_1f task_name task_data))
    results combined
  = List.app combined (flat_map (record_lines format_1f) results).
Proof.
  induction results as [|[k r] results IH]; intros combined H.
  - cbn. now rewrite app_nil_r.
  - cbn [keys map fst forallb] in H. apply andb_true_iff in H as [H1 H2].
    cbn [fold_left flat_map]. rewrite (task_key_not_reserved k H1).
    rewrite (IH _ H2), combine_task_lines. now rewrite <- app_assoc.
Qed.

(** On a mapping that holds the records of tasks only, the combined text
    is the report. *)
Lemma combine_intelligent_results_report now results design :
  forallb is_task_key (keys results) = true ->
  combine_intelligent_results format_1f now results design
  = report format_1f now design results.
Proof.
  intros H. unfold combine_intelligent_results, report.
  rewrite (combine_loop results _ H). now rewrite <- app_assoc.
Qed.

(** What [run_intelligent_crew] returns when it returns. *)
Lemma run_intelligent_crew_returned delay world now design trace returned :
  run_intelligent_crew format_1f delay world now design = (trace, Ok returned) ->
  exists results,
    run_tasks delay (List.length (custom_tasks design)) world
              (enumerate 1 (custom_tasks design)) ([], [])
      = ((results, trace), Ok tt) /\
    forallb is_task_key (keys results) = true /\
    records_of returned = results /\
    (if existsb (fun kv => negb (has_error (snd kv))) results
     then returned =
          List.app (List.app (as_entries results)
                      [("combined", Combined (report format_1f now design results))])
                   [("analysis", Analysis design)]
     else returned = as_entries results).
Proof.
  unfold run_intelligent_crew.
  destruct (run_tasks delay (List.length (custom_tasks design)) world
              (enumerate 1 (custom_tasks design)) ([], []))
    as [[results trace1] [[]|e]] eqn:E.
  2:{ discriminate. }
  pose proof (run_tasks_keys pyfloat delay _ world _ [] [] _ _ _ eq_refl E) as Hk.
  rewrite truthy_filter.
  destruct (task_keys_not_reserved _ Hk) as [Hc Ha].
  destruct (existsb (fun kv => negb (has_error (snd kv))) results) eqn:Ex.
  - rewrite combine_intelligent_results_report by exact Hk.
    rewrite (dict_set_fresh "combined") by now rewrite keys_as_entries.
    rewrite (dict_set_fresh "analysis").
    2:{ rewrite keys_app, keys_as_entries. intros Hin.
        apply in_app_or in Hin as [Hin|[Hin|[]]]; [now apply Ha | discriminate]. }
    intros [= <- <-]. exists results. rewrite Ex.
    repeat split; try assumption. apply records_of_as_entries_all.
  - intros [= <- <-]. exists results. rewrite Ex.
    repeat split; try assumption. apply records_of_as_entries.
Qed.

Lemma run_intelligent_crew_raised delay world now design trace e :
  run_intelligent_crew format_1f delay world now design = (trace, Raise e) ->
  exists results,
    run_tasks delay (List.length (custom_tasks design)) world
              (enumerate 1 (custom_tasks design)) ([], [])
      = ((results, trace), Raise e).
Proof.
  unfold run_intelligent_crew.
  destruct (run_tasks delay (List.length (custom_tasks design)) world
              (enumerate 1 (custom_tasks design)) ([], []))
    as [[results trace1] [[]|e1]] eqn:E.
  - destruct (truthy _); discriminate.
  - intros [= <- <-]. now exists results.
Qed.

End CompilationFacts.

(** ** Claims about the crew runner *)

Section RunFacts.

Variable pyfloat : Type.
Variable format_1f : pyfloat -> string.
Variable delay_between_chunks : Z.
Variable world : nat -> attempt pyfloat.

Lemma attempts_of_events total items :
  filter is_attempt (flat_map (expected_events delay_between_chunks total world) items)
  = map (fun it => Attempt (fst it)) items.
Proof.
  induction items as [|it items IH]; [reflexivity|].
  cbn [flat_map map]. rewrite filter_app, IH. unfold expected_events.
  destruct (failure_of (world (fst it)) (snd it)) as [msg|].
  - now destruct (contains "RateLimitError" msg).
  - now destruct (fst it <? total).
Qed.

Lemma cooldowns_of_events total items :
  filter is_cooldown (flat_map (expected_events delay_between_chunks total world) items)
  = map (fun it => Sleep (fst it) Cooldown 120) (filter (rate_limited world) items).
Proof.
  induction items as [|it items IH]; [reflexivity|].
  cbn [flat_map filter]. rewrite filter_app, IH.
  unfold expected_events, rate_limited.
  destruct (failure_of (world (fst it)) (snd it)) as [msg|].
  - now destruct (contains "RateLimitError" msg).
  - now destruct (fst it <? total).
Qed.

Lemma pacing_of_events total items :
  filter is_pacing (flat_map (expected_events delay_between_chunks total world) items)
  = map (fun it => Sleep (fst it) Pacing delay_between_chunks)
        (filter (fun it => negb (failed world it) && (fst it <? total)) items).
Proof.
  induction items as [|it items IH]; [reflexivity|].
  cbn [flat_map filter]. rewrite filter_app, IH.
  unfold expected_events, failed.
  destruct (failure_of (world (fst it)) (snd it)) as [msg|].
  - now destruct (contains "RateLimitError" msg).
  - now destruct (fst it <? total).
Qed.

Lemma has_error_expected_record it :
  has_error (snd (expected_record world it)) = failed world it.
Proof.
  destruct it as [i task]. unfold expected_record, failed, failure_of. cbn [fst snd].
  destruct (task_outcome (world i)) as [r t|msg]; [|reflexivity].
  now destruct (slug (get task "name" (PStr "unnamed"))).
Qed.

Lemma expected_keys_nodup (items : list (nat * task)) :
  NoDup (map fst items) ->
  NoDup (keys (map (expected_record world) items)).
Proof.
  induction items as [|it items IH]; intros H; [constructor|].
  cbn [map fst] in H. inversion H as [|? ? Hnotin Hnd]; subst.
  cbn [map keys]. constructor; [|now apply IH].
  intros Hin. apply Hnotin. unfold keys in Hin. rewrite map_map in Hin.
  apply in_map_iff in Hin as (it' & Hk & Hin').
  pose proof (expected_record_key pyfloat world it) as K1.
  pose proof (expected_record_key pyfloat world it') as K2.
  rewrite Hk in K2. rewrite <- (key_of_index_inj _ _ _ K2 K1).
  now apply in_map.
Qed.

(** The whole run, when the delay is not negative and every description
    can be measured. *)
Lemma run_intelligent_crew_spec now design :
  (0 <= delay_between_chunks)%Z ->
  forallb description_sized (custom_tasks design) = true ->
  exists returned,
    run_intelligent_crew format_1f delay_between_chunks world now design
    = (flat_map (expected_events delay_between_chunks
                   (List.length (custom_tasks design)) world)
                (enumerate 1 (custom_tasks design)),
       Ok returned) /\
    records_of returned
    = map (expected_record world) (enumerate 1 (custom_tasks design)).
Proof.
  intros Hd Hs.
  pose proof (run_tasks_spec pyfloat delay_between_chunks
                (List.length (custom_tasks design)) world
                (custom_tasks design) 1 [] [] Hd Hs) as Hrun.
  cbn [List.app] in Hrun.
  assert (Hrun' := Hrun (fun k (H : In k (keys [])) => match H with end)).
  clear Hrun.
  destruct (run_intelligent_crew format_1f delay_between_chunks world now design)
    as [trace [returned|e]] eqn:E.
  - destruct (run_intelligent_crew_returned _ _ _ _ _ _ _ _ E)
      as (results & Hr & _ & Hrec & _).
    pose proof (eq_trans (eq_sym Hr) Hrun') as Heq. injection Heq as <- <-.
    exists returned. split; [reflexivity | exact Hrec].
  - exfalso. destruct (run_intelligent_crew_raised _ _ _ _ _ _ _ _ E) as (results & Hr).
    pose proof (eq_trans (eq_sym Hr) Hrun') as Heq. discriminate.
Qed.

End RunFacts.






(** C10: the handler sleeps the cooldown of 120 seconds exactly when the
    text of the caught error contains RateLimitError, in that spelling,
    and does nothing else to the outside world.  For a task whose
    execution raises, the loop stores the failure, sleeps the cooldown
    or not by that test alone, never sleeps the delay between tasks, and
    goes on with the next task.  An error reading rate limit exceeded
    gets no cooldown. *)
Theorem cooldown_only_on_rate_limit_marker
  (pyfloat : Type) (delay_between_chunks : Z) (total : nat)
  (world : nat -> attempt pyfloat) (results : dict (record pyfloat))
  (trace : list event) (i : nat) (task : task) (rest : list (nat * TaskDesigner.task))
  (error_msg : string) :
  task_outcome (world i) = Raised error_msg ->
  description_sized task = true ->
  run_tasks delay_between_chunks total world ((i, task) :: rest) (results, trace)
  = run_tasks delay_between_chunks total world rest
      (dict_set (failed_key i) (Failure task error_msg (now_except (world i))) results,
       (trace ++ Attempt i ::
          (if contains "RateLimitError" error_msg
           then [Sleep i Cooldown 120]
           else []))%list)
  /\ (forall e st,
        snd (except_task i task (world i) e st)
        = (snd st ++ (if contains "RateLimitError" (exn_str e)
                      then [Sleep i Cooldown 120]
                      else []))%list)
  /\ contains "RateLimitError" "rate limit exceeded" = false
  /\ contains "RateLimitError" "ratelimiterror: slow down" = false
  /\ contains "RateLimitError" "openai.RateLimitError: slow down" = true.
Proof.
  intros Ho Hs. split; [|split; [|repeat split]].
  - cbn [run_tasks]. unfold run_task, try_task. unfold description_sized in Hs.
    destruct (len (get task "description" (PStr ""))) as [n|e]; [|discriminate].
    rewrite Ho. unfold except_task, extra_delay, sleep.
    cbn [exn_str Z.ltb Z.compare fst].
    destruct (contains "RateLimitError" error_msg); cbn [fst];
      now rewrite <- ?app_assoc.
  - intros e [results0 trace0]. unfold except_task, extra_delay, sleep.
    cbn [Z.ltb Z.compare fst snd].
    destruct (contains "RateLimitError" (exn_str e)); cbn [fst snd];
      now rewrite ?app_nil_r.
Qed.

Lemma cooldown_only_on_rate_limit_marker_witness :
  run_tasks 65 3 example_world [(3, [("description", PStr "Polish")])] ([], [])
  = (([ ("task_3_failed",
         Failure [("description", PStr "Polish")] "rate limit exceeded"
                 "2025-01-01T10:05:01") ],
      [Attempt 3]),
     Ok tt).
Proof.
  pose proof (cooldown_only_on_rate_limit_marker nat 65 3 example_world [] []
                3 [("description", PStr "Polish")] [] "rate limit exceeded"
                eq_refl eq_refl) as [H _].
  exact H.
Defined.

(** * Further properties *)

(** ** The bracket match, both ways *)

Lemma upto_last_close_none_inv s :
  upto_last_close s = None -> contains "]" s = false.
Proof.
  induction s as [|c s IH]; intros H; [reflexivity|].
  cbn [upto_last_close] in H. rewrite contains_char.
  destruct (upto_last_close s); [discriminate|].
  destruct (Ascii.eqb c "]") eqn:E; [discriminate|].
  rewrite Ascii.eqb_sym, E. now apply IH.
Qed.

Lemma upto_last_close_some s t :
  upto_last_close s = Some t ->
  exists body post,
    s = body ++ "]" ++ post /\ t = body ++ "]" /\ contains "]" post = false.
Proof.
  revert t. induction s as [|c s IH]; intros t H; [discriminate|].
  cbn [upto_last_close] in H.
  destruct (upto_last_close s) as [t'|] eqn:E.
  - injection H as <-. destruct (IH t' eq_refl) as (body & post & -> & -> & Hp).
    now exists (String c body), post.
  - destruct (Ascii.eqb c "]") eqn:Ec; [|discriminate].
    injection H as <-. apply Ascii.eqb_eq in Ec. subst c.
    exists "", s. repeat split. now apply upto_last_close_none_inv.
Qed.

Lemma re_search_no_close s : contains "]" s = false -> re_search s = None.
Proof.
  induction s as [|c s IH]; intros H; [reflexivity|].
  rewrite contains_char in H. apply orb_false_iff in H as [_ Hs].
  cbn [re_search]. rewrite (upto_last_close_none _ Hs), (IH Hs).
  now destruct (Ascii.eqb c "[").
Qed.

Lemma re_search_some_shape (s m : string) :
  re_search s = Some m ->
  exists pre body post,
    s = pre ++ m ++ post /\
    m = "[" ++ body ++ "]" /\
    contains "[" pre = false /\
    contains "]" post = false.
Proof.
  revert m. induction s as [|c s IH]; intros m H; [discriminate|].
  cbn [re_search] in H. destruct (Ascii.eqb c "[") eqn:Ec.
  - apply Ascii.eqb_eq in Ec. subst c.
    destruct (upto_last_close s) as [t|] eqn:E.
    + injection H as <-.
      destruct (upto_last_close_some _ _ E) as (body & post & -> & -> & Hp).
      exists "", body, post. repeat split; try assumption.
      cbn [append]. now rewrite !append_assoc.
    + apply upto_last_close_none_inv in E.
      rewrite (re_search_no_close _ E) in H. discriminate.
  - destruct (IH m H) as (pre & body & post & -> & -> & Hpre & Hpost).
    exists (String c pre), body, post. repeat split; try assumption.
    rewrite contains_char, Hpre. rewrite Ascii.eqb_sym, Ec. reflexivity.
Qed.

(** The match always starts at the first opening bracket of the text and
    ends at its last closing bracket. *)
Theorem re_search_spans_first_open_to_last_close (s m : string) :
  re_search s = Some m ->
  exists pre body post,
    s = pre ++ m ++ post /\
    m = "[" ++ body ++ "]" /\
    contains "[" pre = false /\
    contains "]" post = false.
Proof.
  apply re_search_some_shape.
Qed.

Lemma re_search_spans_first_open_to_last_close_witness :
  exists pre body post,
    "see [1] and [2], ok" = pre ++ "[1] and [2]" ++ post /\
    "[1] and [2]" = "[" ++ body ++ "]" /\
    contains "[" pre = false /\
    contains "]" post = false.
Proof.
  apply (re_search_spans_first_open_to_last_close "see [1] and [2], ok").
  reflexivity.
Defined.

Lemma contains_close_app a b : contains "]" (a ++ "]" ++ b) = true.
Proof.
  induction a as [|c a IH].
  - cbn [append]. rewrite contains_char. reflexivity.
  - cbn [append] in *. rewrite contains_char, IH. apply orb_true_r.
Qed.

Lemma re_search_open_then_close pre rest :
  contains "]" rest = true -> exists m, re_search (pre ++ String "[" rest) = Some m.
Proof.
  intros H.
  assert (Hu : exists t, upto_last_close rest = Some t).
  { destruct (upto_last_close rest) as [t|] eqn:E; [now exists t|].
    apply upto_last_close_none_inv in E. congruence. }
  destruct Hu as [t Ht].
  induction pre as [|c pre IH].
  - cbn [append re_search]. rewrite Ht. cbn. eexists. reflexivity.
  - cbn [append re_search]. destruct (Ascii.eqb c "["); [|exact IH].
    destruct (upto_last_close (pre ++ String "[" rest)); [|exact IH].
    eexists. reflexivity.
Qed.

(** There is a match exactly when some opening bracket of the text has a
    closing bracket after it. *)
Theorem re_search_finds_iff_bracket_pair (s : string) :
  (exists m, re_search s = Some m) <->
  (exists pre body post, s = pre ++ "[" ++ body ++ "]" ++ post).
Proof.
  split.
  - intros [m H].
    destruct (re_search_some_shape s m H)
      as (pre & body & post & -> & -> & _).
    exists pre, body, post. now rewrite !append_assoc.
  - intros (pre & body & post & ->).
    apply (re_search_open_then_close pre (body ++ "]" ++ post)).
    apply contains_close_app.
Qed.

(** ** The records of the line heuristic *)

Lemma text_record_dict_set k v t :
  is_text_key k = true -> text_record t = true ->
  text_record (dict_set k (PStr v) t) = true.
Proof.
  intros Hk. unfold text_record. induction t as [|[k' v'] t IH]; intros H.
  - cbn. now rewrite Hk.
  - cbn [forallb fst snd] in H. apply andb_true_iff in H as [H1 H2].
    cbn [dict_set]. destruct (String.eqb k k'); cbn [forallb fst snd].
    + apply andb_true_iff in H1 as [H1 _]. now rewrite H1, H2.
    + now rewrite H1, IH.
Qed.

Lemma text_record_apply_field cur l :
  text_record cur = true -> text_record (apply_field cur l) = true.
Proof.
  intros H. unfold apply_field.
  destruct (field_of_line l) as [[k v]|] eqn:E; [|exact H].
  apply text_record_dict_set; [|exact H].
  now destruct (field_of_line_key _ _ _ E) as [->|[->| ->]].
Qed.

Lemma text_record_apply_fields ls : forall cur,
  text_record cur = true -> text_record (fold_left apply_field ls cur) = true.
Proof.
  induction ls as [|l ls IH]; intros cur H; [exact H|].
  cbn [fold_left]. apply IH. now apply text_record_apply_field.
Qed.

Lemma truthy_apply_fields_iff ls : forall cur,
  truthy (fold_left apply_field ls cur) = truthy cur || existsb sets_field ls.
Proof.
  induction ls as [|l ls IH]; intros cur.
  - cbn. now rewrite orb_false_r.
  - cbn [fold_left existsb]. rewrite IH. unfold apply_field, sets_field.
    destruct (field_of_line l) as [[k v]|]; [|reflexivity].
    rewrite truthy_dict_set. cbn. now rewrite orb_true_r.
Qed.

Lemma scanned_records_are_text ls :
  forallb text_record
    (List.app (flush (fold_left apply_field (preamble ls) []))
              (map block_record (blocks ls))) = true.
Proof.
  rewrite forallb_app. apply andb_true_iff. split.
  - unfold flush. destruct (truthy _); [|reflexivity].
    cbn [forallb]. rewrite text_record_apply_fields; reflexivity.
  - rewrite forallb_forall. intros t Hin.
    apply in_map_iff in Hin as (b & <- & _). unfold block_record.
    now apply text_record_apply_fields.
Qed.

Lemma parse_text_tasks_records (text : string) :
  exists tasks,
    _parse_text_tasks text = Ok tasks /\
    tasks <> [] /\
    forallb text_record tasks = true.
Proof.
  rewrite parse_text_tasks_eq. cbv zeta.
  pose proof (scanned_records_are_text (lines text)) as Ht.
  destruct (List.app (flush (fold_left apply_field (preamble (lines text)) []))
                     (map block_record (blocks (lines text)))) as [|t r].
  - exists _generate_fallback_tasks. repeat split. discriminate.
  - exists (t :: r). repeat split; [discriminate | exact Ht].
Qed.

(** Whatever the text, the line heuristic returns a non-empty list of
    records that hold nothing but the keys name, description,
    expected_output and success_criteria, each with a string. *)
Theorem text_tier_records_are_text (text : string) :
  exists tasks,
    _parse_text_tasks text = Ok tasks /\
    tasks <> [] /\
    forallb text_record tasks = true.
Proof.
  apply parse_text_tasks_records.
Qed.

(** The number of records of the line heuristic: one per line carrying
    TASK NAME:, one more when a line before the first of them sets a
    field, and the three fixed records when that makes none. *)
Theorem text_tier_record_count (text : string) :
  exists tasks,
    _parse_text_tasks text = Ok tasks /\
    List.length tasks =
    (let names := List.length (filter is_name_line (lines text)) in
     let orphan := existsb sets_field (preamble (lines text)) in
     if (names =? 0) && negb orphan
     then 3
     else names + (if orphan then 1 else 0)).
Proof.
  rewrite parse_text_tasks_eq. cbv zeta. eexists. split; [reflexivity|].
  unfold flush. rewrite truthy_apply_fields_iff. cbn [truthy orb].
  rewrite <- (blocks_heads (lines text)), length_map.
  destruct (existsb sets_field (preamble (lines text))).
  - cbn [truthy List.app]. rewrite andb_false_r.
    cbn [List.length]. rewrite length_map. lia.
  - cbn [List.app]. destruct (blocks (lines text)) as [|b bs]; [reflexivity|].
    cbn [map truthy List.length Nat.eqb andb]. rewrite length_map. lia.
Qed.

(** When a line before the first line carrying TASK NAME: sets a field,
    the first record returned has no name; its fields are the ones set by
    the lines before the first name line, the last line that sets a field
    deciding; the records of the name lines follow it. *)
Theorem field_lines_before_first_name_make_a_record (text : string) :
  existsb sets_field (preamble (lines text)) = true ->
  exists first rest,
    _parse_text_tasks text = Ok (first :: rest) /\
    List.length rest = List.length (filter is_name_line (lines text)) /\
    dict_get "name" first = None /\
    dict_get "description" first
      = option_map PStr (last_value "description" (preamble (lines text))) /\
    dict_get "expected_output" first
      = option_map PStr (last_value "expected_output" (preamble (lines text))) /\
    dict_get "success_criteria" first
      = option_map PStr (last_value "success_criteria" (preamble (lines text))).
Proof.
  intros H. rewrite parse_text_tasks_eq. cbv zeta.
  unfold flush. rewrite truthy_apply_fields_iff, H. cbn [truthy orb List.app].
  eexists _, _. split; [reflexivity|]. split.
  { now rewrite length_map, <- (blocks_heads (lines text)), length_map. }
  rewrite !dict_get_apply_fields, last_value_name. cbn [dict_get].
  repeat split; match goal with |- context [last_value ?k ?b] =>
                  now destruct (last_value k b) end.
Qed.

Lemma field_lines_before_first_name_make_a_record_witness :
  exists first rest,
    _parse_text_tasks ("DESCRIPTION: draw" ++ nl ++ "DESCRIPTION: draw the board"
                       ++ nl ++ "TASK NAME: Build") = Ok (first :: rest) /\
    List.length rest = 1 /\
    dict_get "name" first = None /\
    dict_get "description" first = Some (PStr "draw the board").
Proof.
  destruct (field_lines_before_first_name_make_a_record
              ("DESCRIPTION: draw" ++ nl ++ "DESCRIPTION: draw the board"
               ++ nl ++ "TASK NAME: Build"))
    as (first & rest & Hrun & Hlen & Hname & Hdesc & _).
  - vm_compute. reflexivity.
  - exists first, rest. repeat split; assumption.
Defined.

(** ** From the extractor to the runner *)

Lemma dicts_of_dicts tasks : dicts_of (map PDict tasks) = Ok tasks.
Proof.
  induction tasks as [|t tasks IH]; [reflexivity|].
  cbn [map dicts_of]. now rewrite IH.
Qed.

Lemma iterate_tasks_value tasks : iterate_tasks (tasks_value tasks) = Ok tasks.
Proof. apply dicts_of_dicts. Qed.

Lemma dicts_of_first_other pre v post :
  match v with PDict _ => False | _ => True end ->
  dicts_of (List.app (map PDict pre) (v :: post))
  = Raise (AttributeError ("'" ++ type_name v ++ "' object has no attribute 'get'")).
Proof.
  intros Hv. induction pre as [|t pre IH].
  - cbn [map List.app dicts_of]. now destruct v.
  - cbn [map List.app dicts_of]. now rewrite IH.
Qed.

Lemma text_record_get_is_str t k d :
  text_record t = true -> is_str (get t k (PStr d)) = true.
Proof.
  unfold get, text_record. induction t as [|[k' v'] t IH]; intros H; [reflexivity|].
  cbn [forallb fst snd] in H. apply andb_true_iff in H as [H1 H2].
  apply andb_true_iff in H1 as [_ H1].
  cbn [dict_get]. destruct (String.eqb k k'); [exact H1 | now apply IH].
Qed.

Lemma is_str_sized v : is_str v = true -> exists n, len v = Ok n.
Proof.
  destruct v; try discriminate. intros _. now eexists.
Qed.

Lemma text_record_sized t : text_record t = true -> description_sized t = true.
Proof.
  intros H. unfold description_sized.
  destruct (is_str_sized _ (text_record_get_is_str t "description" "" H)) as [n ->].
  reflexivity.
Qed.

Section LoopFacts.

Variable pyfloat : Type.
Variable format_1f : pyfloat -> string.
Variable delay_between_chunks : Z.
Variable total : nat.
Variable world : nat -> attempt pyfloat.

(** An iteration on a task whose description can be measured ends
    well, whatever the delay, and enters the [try] block once. *)
Lemma run_task_ok st it :
  description_sized (snd it) = true ->
  exists st',
    run_task delay_between_chunks total world st it = (st', Ok tt) /\
    filter is_attempt (snd st')
    = List.app (filter is_attempt (snd st)) [Attempt (fst it)].
Proof.
  intros Hs. destruct it as [i task]. destruct st as [results trace].
  cbn [fst snd] in *. unfold run_task, description_sized in *.
  destruct (len (get task "description" (PStr ""))) as [n|e]; [|discriminate].
  unfold try_task, except_task, sleep, extra_delay.
  assert (Hnil : forall l : list event, filter is_attempt l
                 = List.app (filter is_attempt l) []) by (intros; now rewrite app_nil_r).
  destruct (task_outcome (world i)) as [r t|msg].
  - destruct (slug (get task "name" (PStr "unnamed"))) as [s|e].
    + destruct (i <? total); [destruct (delay_between_chunks <? 0)%Z|];
        (eexists; split; [reflexivity|]); cbn;
        rewrite ?filter_app; cbn; now rewrite ?app_nil_r.
    + destruct (contains "RateLimitError" (exn_str e));
        (eexists; split; [reflexivity|]); cbn [fst snd Z.ltb Z.compare];
        rewrite ?filter_app; cbn [filter is_attempt]; now rewrite ?app_nil_r.
  - cbn [exn_str]. destruct (contains "RateLimitError" msg);
      (eexists; split; [reflexivity|]); cbn [fst snd Z.ltb Z.compare];
      rewrite ?filter_app; cbn [filter is_attempt]; now rewrite ?app_nil_r.
Qed.

Lemma run_tasks_ok items : forall st,
  forallb description_sized (map snd items) = true ->
  exists st',
    run_tasks delay_between_chunks total world items st = (st', Ok tt) /\
    filter is_attempt (snd st')
    = List.app (filter is_attempt (snd st)) (map Attempt (map fst items)).
Proof.
  induction items as [|it items IH]; intros st H.
  - exists st. split; [reflexivity|]. cbn. now rewrite app_nil_r.
  - cbn [map forallb] in H. apply andb_true_iff in H as [H1 H2].
    destruct (run_task_ok st it H1) as (st1 & Hrun & Hatt).
    destruct (IH st1 H2) as (st2 & Hrun2 & Hatt2).
    exists st2. split.
    + cbn [run_tasks]. now rewrite Hrun.
    + rewrite Hatt2, Hatt. cbn [map]. now rewrite <- app_assoc.
Qed.

Lemma run_tasks_app items1 items2 st :
  run_tasks delay_between_chunks total world (List.app items1 items2) st
  = match run_tasks delay_between_chunks total world items1 st with
    | (st', Ok _) => run_tasks delay_between_chunks total world items2 st'
    | (st', Raise e) => (st', Raise e)
    end.
Proof.
  revert st. induction items1 as [|it items1 IH]; intros st; [reflexivity|].
  cbn [List.app run_tasks].
  destruct (run_task delay_between_chunks total world st it) as [st1 [[]|e]];
    [apply IH | reflexivity].
Qed.

End LoopFacts.

(** A run on tasks whose descriptions can be measured returns, whatever
    the delay. *)
Lemma run_intelligent_crew_ok (pyfloat : Type) (format_1f : pyfloat -> string)
  (delay_between_chunks : Z) (world : nat -> attempt pyfloat) now design :
  forallb description_sized (custom_tasks design) = true ->
  exists trace returned,
    run_intelligent_crew format_1f delay_between_chunks world now design
      = (trace, Ok returned) /\
    filter is_attempt trace
    = map Attempt (seq 1 (List.length (custom_tasks design))).
Proof.
  intros Hs. unfold run_intelligent_crew.
  destruct (run_tasks_ok pyfloat delay_between_chunks
              (List.length (custom_tasks design)) world
              (enumerate 1 (custom_tasks design)) ([], []))
    as ([results trace] & Hrun & Hatt).
  { now rewrite map_snd_enumerate. }
  rewrite map_fst_enumerate in Hatt. cbn [snd filter List.app] in Hatt.
  match goal with
  | |- context [run_tasks ?d ?k ?w ?items ?st] =>
      replace (run_tasks d k w items st) with ((results, trace), @Ok unit tt)
        by (symmetry; exact Hrun)
  end.
  destruct (truthy _); eexists _, _; (split; [reflexivity | exact Hatt]).
Qed.

(** When the bracket match of the answer, if any, does not decode, the
    whole run returns a mapping, whatever the delay and whatever the
    executions do: the records of the line heuristic hold strings only,
    so the design is made and the loop attempts every one of them. *)
Theorem text_answer_run_returns
  (json_loads : string -> result pyval) (str_other : pyval -> string)
  (pyfloat : Type) (format_1f : pyfloat -> string) (delay_between_chunks : Z)
  (project_idea target_audience timeline : string)
  (analysis_answer tasks_answer : TaskOutput)
  (world : nat -> attempt pyfloat) (now text : string) :
  task_data tasks_answer = text ->
  str tasks_answer = text ->
  (forall m, re_search text = Some m -> exists e, json_loads m = Raise e) ->
  exists tasks trace returned,
    _parse_text_tasks text = Ok tasks /\
    run_crew json_loads str_other format_1f delay_between_chunks
             project_idea target_audience timeline
             analysis_answer tasks_answer world now
      = (trace, Ok returned) /\
    filter is_attempt trace = map Attempt (seq 1 (List.length tasks)).
Proof.
  intros Hd Hs Hj.
  destruct (parse_text_tasks_records text) as (tasks & Hp & _ & Ht).
  unfold run_crew, analyze_and_design_tasks.
  rewrite (generate_custom_tasks_text json_loads tasks_answer text Hd Hs Hj).
  rewrite Hp. cbn [bind]. rewrite iterate_tasks_value. cbn [bind].
  match goal with
  | |- context [run_intelligent_crew _ _ _ _ ?d] =>
      destruct (run_intelligent_crew_ok pyfloat format_1f delay_between_chunks
                  world now d) as (trace & returned & Hrun & Hatt)
  end.
  { cbn [custom_tasks]. rewrite forallb_forall in *. intros t Hin.
    apply text_record_sized. now apply Ht. }
  exists tasks, trace, returned. repeat split; assumption.
Qed.

Lemma text_answer_run_returns_witness :
  exists tasks trace returned,
    _parse_text_tasks "TASK NAME: Build UI" = Ok tasks /\
    run_crew Json.loads str_plain tenths_1f (-5) "game" "gamers" "1 week"
             (text_output "A small game.") (text_output "TASK NAME: Build UI")
             failing_world "2025-01-01T11:00:00"
      = (trace, Ok returned) /\
    filter is_attempt trace = map Attempt (seq 1 (List.length tasks)).
Proof.
  apply (text_answer_run_returns Json.loads str_plain nat tenths_1f (-5)
           "game" "gamers" "1 week" (text_output "A small game.")
           (text_output "TASK NAME: Build UI") failing_world
           "2025-01-01T11:00:00" "TASK NAME: Build UI" eq_refl eq_refl).
  intros m H. vm_compute in H. discriminate.
Defined.

(** When the decoded list holds an element that is not an object, after
    objects only, the design raises the AttributeError of that element;
    no task is attempted and nothing is returned.  The extractor itself
    has returned the list. *)
Theorem design_raises_on_element_without_get
  (json_loads : string -> result pyval) (str_other : pyval -> string)
  (pyfloat : Type) (format_1f : pyfloat -> string) (delay_between_chunks : Z)
  (project_idea target_audience timeline : string)
  (analysis_answer tasks_answer : TaskOutput)
  (world : nat -> attempt pyfloat) (now : string)
  (pre : list task) (v : pyval) (post : list pyval) :
  generate_custom_tasks json_loads tasks_answer
    = Ok (PList (List.app (map PDict pre) (v :: post))) ->
  match v with PDict _ => False | _ => True end ->
  analyze_and_design_tasks json_loads str_other project_idea target_audience
    timeline analysis_answer tasks_answer
    = Raise (AttributeError ("'" ++ type_name v ++ "' object has no attribute 'get'")) /\
  run_crew json_loads str_other format_1f delay_between_chunks
           project_idea target_audience timeline
           analysis_answer tasks_answer world now
    = ([], Raise (AttributeError
                    ("'" ++ type_name v ++ "' object has no attribute 'get'"))).
Proof.
  intros Hg Hv.
  assert (Hd : analyze_and_design_tasks json_loads str_other project_idea
                 target_audience timeline analysis_answer tasks_answer
               = Raise (AttributeError
                          ("'" ++ type_name v ++ "' object has no attribute 'get'"))).
  { unfold analyze_and_design_tasks. rewrite Hg. cbn [bind iterate_tasks].
    now rewrite (dicts_of_first_other pre v post Hv). }
  split; [exact Hd|]. unfold run_crew. now rewrite Hd.
Qed.

Lemma design_raises_on_element_without_get_witness :
  run_crew Json.loads str_plain tenths_1f 65 "game" "gamers" "1 week"
           (text_output "A small game.")
           (text_output ("Tasks: [" ++ Json.quoted "Build UI" ++ ", "
                         ++ Json.quoted "Ship" ++ "]"))
           example_world "2025-01-01T11:00:00"
  = ([], Raise (AttributeError "'str' object has no attribute 'get'")).
Proof.
  apply (design_raises_on_element_without_get Json.loads str_plain nat tenths_1f 65
           "game" "gamers" "1 week" (text_output "A small game.")
           (text_output ("Tasks: [" ++ Json.quoted "Build UI" ++ ", "
                         ++ Json.quoted "Ship" ++ "]"))
           example_world "2025-01-01T11:00:00"
           [] (PStr "Build UI") [PStr "Ship"]).
  - vm_compute. reflexivity.
  - exact I.
Defined.

(** When the extractor returns the empty list, the design has no task:
    the guide is the header, which counts 0 tasks, followed by the fixed
    notes; the run attempts nothing, sleeps for nothing and returns the
    empty mapping, without a combined report. *)
Theorem empty_task_list_runs_nothing
  (json_loads : string -> result pyval) (str_other : pyval -> string)
  (pyfloat : Type) (format_1f : pyfloat -> string) (delay_between_chunks : Z)
  (project_idea target_audience timeline : string)
  (analysis_answer tasks_answer : TaskOutput)
  (world : nat -> attempt pyfloat) (now : string) :
  generate_custom_tasks json_loads tasks_answer = Ok (PList []) ->
  (exists design,
     analyze_and_design_tasks json_loads str_other project_idea target_audience
       timeline analysis_answer tasks_answer = Ok design /\
     custom_tasks design = [] /\
     project_guide design
     = Some (guide_header
               (analyze_project project_idea target_audience timeline analysis_answer)
               []
             ++ guide_footer)) /\
  run_crew json_loads str_other format_1f delay_between_chunks
           project_idea target_audience timeline
           analysis_answer tasks_answer world now
    = ([], Ok []).
Proof.
  intros Hg. unfold run_crew, analyze_and_design_tasks. rewrite Hg.
  cbn [bind iterate_tasks dicts_of]. split.
  - eexists. split; [reflexivity|]. split; reflexivity.
  - reflexivity.
Qed.

Lemma empty_task_list_runs_nothing_witness :
  run_crew Json.loads str_plain tenths_1f 65 "game" "gamers" "1 week"
           (text_output "A small game.")
           (text_output ("TASK NAME: Build UI" ++ nl ++ "- [ ] board drawn"))
           example_world "2025-01-01T11:00:00"
  = ([], Ok []).
Proof.
  apply (empty_task_list_runs_nothing Json.loads str_plain nat tenths_1f 65
           "game" "gamers" "1 week" (text_output "A small game.")
           (text_output ("TASK NAME: Build UI" ++ nl ++ "- [ ] board drawn"))
           example_world "2025-01-01T11:00:00").
  vm_compute. reflexivity.
Defined.

(** The guide that the design stores is the guide of the tasks it
    stores, and it always opens with the title and the line Generated:
    Unknown, since the analysis carries no timestamp; the idea follows. *)
Theorem designed_guide_is_generated_unknown
  (json_loads : string -> result pyval) (str_other : pyval -> string)
  (project_idea target_audience timeline : string)
  (analysis_answer tasks_answer : TaskOutput) (design : DesignResult) :
  analyze_and_design_tasks json_loads str_other project_idea target_audience
    timeline analysis_answer tasks_answer = Ok design ->
  design_analysis design
    = Some (analyze_project project_idea target_audience timeline analysis_answer) /\
  project_guide design
    = Some (create_project_guide str_other
              (analyze_project project_idea target_audience timeline analysis_answer)
              (custom_tasks design)) /\
  exists rest,
    project_guide design
    = Some ("# PROJECT DEVELOPMENT GUIDE" ++ nl ++
            "Generated: Unknown" ++ nl ++
            nl ++
            "## PROJECT OVERVIEW" ++ nl ++
            "**Idea:** " ++ project_idea ++ nl ++ rest).
Proof.
  unfold analyze_and_design_tasks.
  destruct (generate_custom_tasks json_loads tasks_answer) as [v|e]; [|discriminate].
  cbn [bind]. destruct (iterate_tasks v) as [tasks|e]; [|discriminate].
  cbn [bind]. intros [= <-]. cbn [project_guide design_analysis custom_tasks].
  split; [reflexivity|]. split; [reflexivity|].
  unfold create_project_guide, guide_header.
  rewrite fold_left_append. cbn [analyze_project timestamp TaskDesigner.project_idea].
  rewrite !append_assoc. eexists. cbn [append]. reflexivity.
Qed.

Lemma designed_guide_is_generated_unknown_witness :
  exists design rest,
    analyze_and_design_tasks Json.loads str_plain "game" "gamers" "1 week"
      (text_output "A small game.") (text_output "TASK NAME: Build UI") = Ok design /\
    project_guide design
    = Some ("# PROJECT DEVELOPMENT GUIDE" ++ nl ++
            "Generated: Unknown" ++ nl ++
            nl ++
            "## PROJECT OVERVIEW" ++ nl ++
            "**Idea:** " ++ "game" ++ nl ++ rest).
Proof.
  eexists. 
  assert (H : analyze_and_design_tasks Json.loads str_plain "game" "gamers" "1 week"
                (text_output "A small game.") (text_output "TASK NAME: Build UI")
              = Ok ?[d]) by (vm_compute; reflexivity).
  destruct (designed_guide_is_generated_unknown Json.loads str_plain
              "game" "gamers" "1 week" (text_output "A small game.")
              (text_output "TASK NAME: Build UI") _ H) as (_ & _ & rest & Hrest).
  exists rest. split; [exact H | exact Hrest].
Defined.

(** ** Edges of the loop *)

Lemma enumerate_app {A} (l1 l2 : list A) : forall start,
  enumerate start (List.app l1 l2)
  = List.app (enumerate start l1) (enumerate (start + List.length l1) l2).
Proof.
  induction l1 as [|a l1 IH]; intros start.
  - cbn [List.app List.length]. now rewrite Nat.add_0_r.
  - change (enumerate start (List.app (a :: l1) l2))
      with ((start, a) :: enumerate (S start) (List.app l1 l2)).
    rewrite IH. cbn [List.length].
    change (enumerate start (a :: l1)) with ((start, a) :: enumerate (S start) l1).
    cbn [List.app]. now rewrite Nat.add_succ_r.
Qed.

Section EdgeFacts.

Variable pyfloat : Type.
Variable format_1f : pyfloat -> string.
Variable delay_between_chunks : Z.
Variable total : nat.
Variable world : nat -> attempt pyfloat.

Lemma run_tasks_abort pre t post start st :
  forallb description_sized pre = true ->
  description_sized t = false ->
  exists st' e,
    len (get t "description" (PStr "")) = Raise e /\
    run_tasks delay_between_chunks total world
              (enumerate start (List.app pre (t :: post))) st
      = (st', Raise e) /\
    filter is_attempt (snd st')
    = List.app (filter is_attempt (snd st))
               (map Attempt (seq start (List.length pre))).
Proof.
  intros Hpre Ht. rewrite enumerate_app, run_tasks_app.
  destruct (run_tasks_ok pyfloat delay_between_chunks total world
              (enumerate start pre) st) as (st1 & Hrun & Hatt).
  { now rewrite map_snd_enumerate. }
  rewrite Hrun. rewrite map_fst_enumerate in Hatt.
  change (enumerate (start + List.length pre) (t :: post))
    with ((start + List.length pre, t)
            :: enumerate (S (start + List.length pre)) post).
  cbn [run_tasks]. unfold run_task. unfold description_sized in Ht.
  destruct (len (get t "description" (PStr ""))) as [n|e]; [discriminate|].
  exists st1, e. repeat split. exact Hatt.
Qed.

End EdgeFacts.

(** A task whose description cannot be measured by [len], such as a
    JSON null or a number, makes the run raise the TypeError of [len]
    when its turn comes.  The tasks before it have been attempted, the
    task itself and the ones after it have not, and no mapping is
    returned. *)
Theorem unsized_description_aborts_run
  (pyfloat : Type) (format_1f : pyfloat -> string) (delay_between_chunks : Z)
  (world : nat -> attempt pyfloat) (now : string) (design : DesignResult)
  (pre : list task) (t : task) (post : list task) :
  custom_tasks design = List.app pre (t :: post) ->
  forallb description_sized pre = true ->
  description_sized t = false ->
  exists trace e,
    len (get t "description" (PStr "")) = Raise e /\
    run_intelligent_crew format_1f delay_between_chunks world now design
      = (trace, Raise e) /\
    filter is_attempt trace = map Attempt (seq 1 (List.length pre)).
Proof.
  intros Hc Hpre Ht.
  destruct (run_tasks_abort pyfloat delay_between_chunks
              (List.length (custom_tasks design)) world pre t post 1 ([], [])
              Hpre Ht) as ([results trace] & e & Hlen & Hrun & Hatt).
  cbn [snd filter List.app] in Hatt.
  exists trace, e. split; [exact Hlen|]. split; [|exact Hatt].
  unfold run_intelligent_crew. rewrite Hc in *.
  match goal with
  | |- context [run_tasks ?d ?k ?w ?items ?st] =>
      replace (run_tasks d k w items st) with ((results, trace), @Raise unit e)
        by (symmetry; exact Hrun)
  end.
  reflexivity.
Qed.

Lemma unsized_description_aborts_run_witness :
  exists trace e,
    run_intelligent_crew tenths_1f 65 example_world "2025-01-01T11:00:00"
      {| design_analysis := None;
         custom_tasks := [ [("name", PStr "Build UI")];
                           [("name", PStr "Ship"); ("description", PNone)];
                           [("name", PStr "Polish")] ];
         project_guide := None |}
      = (trace, Raise e) /\
    e = TypeError "object of type 'NoneType' has no len()" /\
    filter is_attempt trace = [Attempt 1].
Proof.
  destruct (unsized_description_aborts_run nat tenths_1f 65 example_world
              "2025-01-01T11:00:00"
              {| design_analysis := None;
                 custom_tasks := [ [("name", PStr "Build UI")];
                                   [("name", PStr "Ship"); ("description", PNone)];
                                   [("name", PStr "Polish")] ];
                 project_guide := None |}
              [ [("name", PStr "Build UI")] ]
              [("name", PStr "Ship"); ("description", PNone)]
              [ [("name", PStr "Polish")] ] eq_refl eq_refl eq_refl)
    as (trace & e & Hlen & Hrun & Hatt).
  exists trace, e. split; [exact Hrun|]. split; [|exact Hatt].
  cbn in Hlen. now injection Hlen as <-.
Defined.



(** A task whose name is not a string, such as a JSON number or null, is
    executed, and when the execution returns the result is dropped: the
    key cannot be formed, the handler stores a failure carrying the
    AttributeError, and neither the delay between tasks nor the cooldown
    is slept. *)
Theorem name_that_is_no_string_is_recorded_failed
  (pyfloat : Type) (delay_between_chunks : Z) (total : nat)
  (world : nat -> attempt pyfloat) (results : dict (record pyfloat))
  (trace : list event) (i : nat) (task : task)
  (result : TaskOutput) (execution_time : pyfloat) :
  task_outcome (world i) = Returned result execution_time ->
  name_is_str task = false ->
  description_sized task = true ->
  run_task delay_between_chunks total world (results, trace) (i, task)
  = ((dict_set (failed_key i)
        (Failure task
           ("'" ++ type_name (get task "name" (PStr "unnamed"))
                ++ "' object has no attribute 'replace'")
           (now_except (world i)))
        results,
      (trace ++ [Attempt i])%list),
     Ok tt).
Proof.
  intros Ho Hn Hs. unfold run_task. unfold description_sized in Hs.
  destruct (len (get task "description" (PStr ""))) as [n|e]; [|discriminate].
  unfold try_task. rewrite Ho. unfold name_is_str in Hn.
  destruct (get task "name" (PStr "unnamed")); try discriminate; reflexivity.
Qed.

Lemma name_that_is_no_string_is_recorded_failed_witness :
  run_task 65 4 example_world ([], []) (1, [("name", PInt 7)])
  = (([ ("task_1_failed",
         Failure [("name", PInt 7)] "'int' object has no attribute 'replace'"
                 "2025-01-01T10:00:01") ],
      [Attempt 1]),
     Ok tt).
Proof.
  apply (name_that_is_no_string_is_recorded_failed nat 65 4 example_world [] [] 1
           [("name", PInt 7)] (text_output "index.html written") 125);
    reflexivity.
Defined.

(** ** Sleeping *)

Lemma total_sleep_app t1 t2 :
  total_sleep (List.app t1 t2) = (total_sleep t1 + total_sleep t2)%Z.
Proof.
  induction t1 as [|[i|i why s] t1 IH]; cbn [List.app total_sleep]; lia.
Qed.

Lemma pacing_count_not_last {A} (f : nat * A -> bool) (l : list A) : forall start,
  List.length
    (filter (fun it => f it && (fst it <? start + List.length l - 1))
            (enumerate start l))
  <= List.length l - 1.
Proof.
  induction l as [|a l IH]; intros start; [cbn; lia|].
  change (enumerate start (a :: l)) with ((start, a) :: enumerate (S start) l).
  specialize (IH (S start)).
  destruct l as [|b l].
  - cbn [filter fst List.length enumerate combine seq].
    replace (start + 1 - 1) with start by lia.
    rewrite Nat.ltb_irrefl, andb_false_r. cbn. lia.
  - cbn [filter fst]. cbn [List.length] in *.
    replace (start + S (S (List.length l)) - 1)
      with (S start + S (List.length l) - 1) by lia.
    destruct (f (start, a) && _); cbn [List.length]; lia.
Qed.

Section SleepFacts.

Variable pyfloat : Type.
Variable delay_between_chunks : Z.
Variable total : nat.
Variable world : nat -> attempt pyfloat.

Lemma total_sleep_of_events items :
  total_sleep (flat_map (expected_events delay_between_chunks total world) items)
  = (delay_between_chunks
       * Z.of_nat (List.length (filter (succeeded_not_last world total) items))
     + 120 * Z.of_nat (List.length (filter (rate_limited world) items)))%Z.
Proof.
  induction items as [|it items IH]; [cbn; lia|].
  cbn [flat_map filter]. rewrite total_sleep_app, IH.
  unfold expected_events, succeeded_not_last, failed, rate_limited.
  destruct (failure_of (world (fst it)) (snd it)) as [msg|].
  - destruct (contains "RateLimitError" msg); cbn [negb andb total_sleep List.length];
      lia.
  - destruct (fst it <? total); cbn [negb andb total_sleep List.length]; lia.
Qed.

End SleepFacts.





(** ** The report and the files *)

(** The report lists, in the order of the mapping, every entry whose key
    is neither combined nor analysis, and leaves out the entries under
    these two keys, whatever they hold. *)
Theorem report_leaves_out_reserved_keys
  (pyfloat : Type) (format_1f : pyfloat -> string) (now : string)
  (task_results : dict (record pyfloat)) (analysis_result : DesignResult) :
  combine_intelligent_results format_1f now task_results analysis_result
  = report format_1f now analysis_result (filter listed task_results).
Proof.
  unfold combine_intelligent_results, report.
  match goal with
  | |- context [fold_left ?f task_results ?init] =>
      assert (H : forall l acc,
                 fold_left f l acc
                 = List.app acc (flat_map (record_lines format_1f) (filter listed l)))
  end.
  { induction l as [|[k r] l IH]; intros acc.
    - cbn. now rewrite app_nil_r.
    - cbn [fold_left filter]. unfold listed at 1. cbn [fst].
      destruct (String.eqb k "combined" || String.eqb k "analysis").
      + cbn [negb]. apply IH.
      + cbn [negb flat_map]. rewrite IH, combine_task_lines.
        now rewrite <- app_assoc. }
  rewrite H. now rewrite <- app_assoc.
Qed.

Lemma designed_guide_facts json_loads str_other idea audience timeline
  analysis_answer tasks_answer design :
  analyze_and_design_tasks json_loads str_other idea audience timeline
    analysis_answer tasks_answer = Ok design ->
  exists guide, project_guide design = Some guide.
Proof.
  unfold analyze_and_design_tasks.
  destruct (generate_custom_tasks json_loads tasks_answer) as [v|e]; [|discriminate].
  cbn [bind]. destruct (iterate_tasks v) as [tasks|e]; [|discriminate].
  cbn [bind]. intros [= <-]. eexists. reflexivity.
Qed.

Lemma save_file_accepted d path text saved :
  accepts d ->
  save_file d path (Ok text) saved
  = (List.app saved [OpenFile path; WriteFile path text], Ok tt).
Proof.
  intros (_ & Ho & Hw). unfold save_file. rewrite Ho, Hw.
  now rewrite <- app_assoc.
Qed.

Section SaveFacts.

Variable pyfloat : Type.
Variable format_1f : pyfloat -> string.
Variable json_dump : dict (entry pyfloat) -> string.

Lemma save_results_returned d delay world now design trace results timestamp :
  run_intelligent_crew format_1f delay world now design = (trace, Ok results) ->
  accepts d ->
  save_results json_dump d timestamp results
  = (MakeDirs output_dir
       :: OpenFile (output_dir ++ "/game_output_" ++ timestamp ++ ".json")
       :: WriteFile (output_dir ++ "/game_output_" ++ timestamp ++ ".json")
                    (json_dump results)
       :: (if existsb (fun kv => negb (has_error (snd kv))) (records_of results)
           then OpenFile (output_dir ++ "/game_output_" ++ timestamp ++ "_combined.md")
                  :: WriteFile
                       (output_dir ++ "/game_output_" ++ timestamp ++ "_combined.md")
                       (report format_1f now design (records_of results))
                  :: match project_guide design with
                     | Some guide =>
                         [ OpenFile
                             (output_dir ++ "/project_guide_" ++ timestamp ++ ".md");
                           WriteFile
                             (output_dir ++ "/project_guide_" ++ timestamp ++ ".md")
                             guide ]
                     | None => []
                     end
           else []),
     Ok tt).
Proof.
  intros Hrun Hacc.
  destruct (run_intelligent_crew_returned _ _ _ _ _ _ _ _ Hrun)
    as (rs & _ & Hk & Hres & Hret).
  rewrite Hres. destruct (task_keys_not_reserved _ Hk) as [Hc Ha].
  assert (Hc' : ~ In "combined" (keys (as_entries rs)))
    by now rewrite keys_as_entries.
  assert (Ha' : ~ In "analysis" (keys (as_entries rs)))
    by now rewrite keys_as_entries.
  unfold save_results. destruct Hacc as (Hm & Ho & Hw). rewrite Hm.
  rewrite (save_file_accepted d _ _ _ (conj Hm (conj Ho Hw))).
  destruct (existsb _ rs) eqn:Ex; rewrite Hret.
  - rewrite <- app_assoc.
    rewrite (dict_get_app_fresh "combined") by assumption.
    cbn [List.app dict_get String.eqb Ascii.eqb Bool.eqb].
    rewrite (save_file_accepted d _ _ _ (conj Hm (conj Ho Hw))).
    rewrite (dict_get_app_fresh "analysis") by assumption.
    cbn [List.app dict_get String.eqb Ascii.eqb Bool.eqb].
    destruct (project_guide design); [|reflexivity].
    now rewrite (save_file_accepted d _ _ _ (conj Hm (conj Ho Hw))).
  - now rewrite !dict_get_none by assumption.
Qed.

End SaveFacts.

(** After a run that returned, on a file system that accepts every
    operation, the saving makes the folder and writes the JSON dump, and
    then the combined report and the guide exactly when one record is a
    success.  When every task failed the guide is not saved, although the
    design holds it. *)
Theorem files_saved_follow_success
  (pyfloat : Type) (format_1f : pyfloat -> string)
  (json_dump : dict (entry pyfloat) -> string) (d : disk)
  (delay_between_chunks : Z)
  (world : nat -> attempt pyfloat) (now : string) (design : DesignResult)
  (trace : list event) (results : dict (entry pyfloat)) (timestamp : string) :
  run_intelligent_crew format_1f delay_between_chunks world now design
    = (trace, Ok results) ->
  accepts d ->
  save_results json_dump d timestamp results
  = (MakeDirs output_dir
       :: OpenFile (output_dir ++ "/game_output_" ++ timestamp ++ ".json")
       :: WriteFile (output_dir ++ "/game_output_" ++ timestamp ++ ".json")
                    (json_dump results)
       :: (if existsb (fun kv => negb (has_error (snd kv))) (records_of results)
           then OpenFile (output_dir ++ "/game_output_" ++ timestamp ++ "_combined.md")
                  :: WriteFile
                       (output_dir ++ "/game_output_" ++ timestamp ++ "_combined.md")
                       (report format_1f now design (records_of results))
                  :: match project_guide design with
                     | Some guide =>
                         [ OpenFile
                             (output_dir ++ "/project_guide_" ++ timestamp ++ ".md");
                           WriteFile
                             (output_dir ++ "/project_guide_" ++ timestamp ++ ".md")
                             guide ]
                     | None => []
                     end
           else []),
     Ok tt).
Proof.
  intros Hrun Hacc. now apply save_results_returned with (delay := delay_between_chunks)
                          (world := world) (trace := trace).
Qed.

Lemma files_saved_follow_success_witness :
  save_results (fun _ : dict (entry nat) => "{}") accepting_disk "20250101_110000"
    [ ("task_1_failed",
       Record_ (Failure [("name", PStr "Build UI")] "boom" "2025-01-01T10:00:01")) ]
  = ([ MakeDirs output_dir;
       OpenFile (output_dir ++ "/game_output_20250101_110000.json");
       WriteFile (output_dir ++ "/game_output_20250101_110000.json") "{}" ],
     Ok tt).
Proof.
  assert (Hacc : accepts accepting_disk) by (repeat split).
  exact (files_saved_follow_success nat tenths_1f
           (fun _ : dict (entry nat) => "{}") accepting_disk 65 failing_world
           "2025-01-01T11:00:00" one_task_design [Attempt 1]
           [ ("task_1_failed",
              Record_ (Failure [("name", PStr "Build UI")] "boom"
                               "2025-01-01T10:00:01")) ]
           "20250101_110000" eq_refl Hacc).
Defined.



(** ** The project improver *)

Lemma keys_dict_set_same {V W} k (v : V) (w : W) d : forall d',
  keys d = keys d' -> keys (dict_set k v d) = keys (dict_set k w d').
Proof.
  induction d as [|[k1 v1] d IH]; intros [|[k2 v2] d'] H; try discriminate.
  - reflexivity.
  - cbn [keys map fst] in H. injection H as <- H.
    cbn [dict_set]. destruct (String.eqb k k1); cbn [keys map fst].
    + now f_equal.
    + f_equal. now apply IH.
Qed.

Section ImproverFacts.

Variable fs : filesystem.
Variable project_path : string.

Lemma read_files_ok files : forall opened project_files,
  (forall f, In f files -> is_web_file f = true ->
             exists c, read_text fs (path_join project_path f) = Ok c) ->
  exists project_files',
    read_files fs project_path files (opened, project_files)
    = (List.app opened (map (path_join project_path) (filter is_web_file files)),
       Ok project_files') /\
    (NoDup (List.app (keys project_files) (filter is_web_file files)) ->
     keys project_files'
     = List.app (keys project_files) (filter is_web_file files)).
Proof.
  induction files as [|f files IH]; intros opened pf Hr.
  - exists pf. split; cbn; now rewrite app_nil_r.
  - cbn [read_files filter]. destruct (is_web_file f) eqn:Ew.
    + destruct (Hr f (or_introl eq_refl) Ew) as [c Hc]. rewrite Hc. cbn [fst snd].
      destruct (IH (List.app opened [path_join project_path f])
                   (dict_set f c pf)) as (pf' & Hrun & Hk).
      { intros g Hg. apply Hr. now right. }
      exists pf'. split.
      * rewrite Hrun. cbn [map]. now rewrite <- app_assoc.
      * intros Hnd.
        assert (Hf : ~ In f (keys pf)).
        { intros Hin. apply NoDup_remove_2 in Hnd. apply Hnd.
          apply in_or_app. now left. }
        rewrite (dict_set_fresh f c pf Hf) in Hk. rewrite keys_app in Hk.
        cbn [keys map fst] in Hk. rewrite <- app_assoc in Hk. cbn [List.app] in Hk.
        apply Hk. exact Hnd.
    + apply IH. intros g Hg. apply Hr. now right.
Qed.

End ImproverFacts.

(** When the folder exists and every listed file with one of the three
    endings can be read, the improver opens exactly the listed files
    whose name ends in .html, .js or .css, in the order of the listing
    and under the path of the folder, and no other file; the keys of
    the dictionary it fills are their names. *)
Theorem improver_reads_web_files_only
  (fs : filesystem) (project_path : string) (files : list string) :
  path_exists fs project_path = true ->
  listdir fs project_path = Ok files ->
  NoDup files ->
  (forall f, In f files -> is_web_file f = true ->
             exists c, read_text fs (path_join project_path f) = Ok c) ->
  exists project_files,
    read_project_files fs project_path
    = (map (path_join project_path) (filter is_web_file files), Ok project_files) /\
    keys project_files = filter is_web_file files.
Proof.
  intros He Hl Hnd Hr. unfold read_project_files. rewrite He, Hl.
  destruct (read_files_ok fs project_path files [] [] Hr) as (pf & Hrun & Hk).
  exists pf. split; [exact Hrun|]. apply Hk. cbn [keys map List.app].
  now apply NoDup_filter.
Qed.

Lemma improver_reads_web_files_only_witness :
  exists project_files,
    read_project_files (example_fs false "x") "game"
    = (["game/index.html"; "game/style.css"; "game/game.js"], Ok project_files) /\
    keys project_files = ["index.html"; "style.css"; "game.js"].
Proof.
  apply (improver_reads_web_files_only (example_fs false "x") "game"
           ["index.html"; "notes.json"; "style.css"; "game.js"]);
    try reflexivity.
  - repeat constructor; cbn; intuition discriminate.
  - intros f _ _. now exists "x".
Defined.

Lemma read_files_app fs project_path files1 files2 st :
  read_files fs project_path (List.app files1 files2) st
  = match read_files fs project_path files1 st with
    | (opened, Ok project_files) =>
        read_files fs project_path files2 (opened, project_files)
    | (opened, Raise e) => (opened, Raise e)
    end.
Proof.
  revert st. induction files1 as [|f files1 IH]; intros [opened pf].
  - reflexivity.
  - cbn [List.app read_files]. destruct (is_web_file f); [|apply IH].
    destruct (read_text fs (path_join project_path f)); [apply IH | reflexivity].
Qed.

(** A listed file with one of the three endings that cannot be read
    stops the improver: it raises the error of the reading, the files
    listed after it are not opened, and no task is attempted. *)
Theorem unreadable_file_stops_the_improver
  (repr_names : list string -> string)
  (json_loads : string -> result pyval) (str_other : pyval -> string)
  (pyfloat : Type) (format_1f : pyfloat -> string)
  (fs : filesystem) (project_path improvement_request target_audience : string)
  (analysis_answer tasks_answer : TaskOutput)
  (world : nat -> attempt pyfloat) (now : string)
  (pre : list string) (f : string) (post : list string) (e : exn) :
  path_exists fs project_path = true ->
  listdir fs project_path = Ok (List.app pre (f :: post)) ->
  (forall g, In g pre -> is_web_file g = true ->
             exists c, read_text fs (path_join project_path g) = Ok c) ->
  is_web_file f = true ->
  read_text fs (path_join project_path f) = Raise e ->
  improve_project repr_names json_loads str_other format_1f fs
    project_path improvement_request target_audience
    analysis_answer tasks_answer world now
  = (List.app (map (path_join project_path) (filter is_web_file pre))
              [path_join project_path f],
     [], Raise e).
Proof.
  intros He Hl Hpre Hw Hf. unfold improve_project, read_project_files.
  rewrite He, Hl, read_files_app.
  destruct (read_files_ok fs project_path pre [] [] Hpre) as (pf & Hrun & _).
  match goal with
  | |- context [read_files fs project_path pre ?st] =>
      replace (read_files fs project_path pre st)
        with (map (path_join project_path) (filter is_web_file pre), Ok pf)
        by (symmetry; exact Hrun)
  end.
  cbn [read_files List.app fst snd]. rewrite Hw, Hf. reflexivity.
Qed.

Lemma unreadable_file_stops_the_improver_witness :
  improve_project repr_plain Json.loads str_plain tenths_1f (example_fs true "x")
    "game" "add sound" "gamers"
    (text_output "A small game.") (text_output "TASK NAME: Build UI")
    example_world "2025-01-01T11:00:00"
  = (["game/index.html"; "game/style.css"], [],
     Raise (Exception "permission denied")).
Proof.
  apply (unreadable_file_stops_the_improver repr_plain Json.loads str_plain nat
           tenths_1f (example_fs true "x") "game" "add sound" "gamers"
           (text_output "A small game.") (text_output "TASK NAME: Build UI")
           example_world "2025-01-01T11:00:00"
           ["index.html"; "notes.json"] "style.css" ["game.js"]);
    try reflexivity.
  intros g [<-|[<-|[]]] _; now exists "x".
Defined.

Lemma read_files_same_keys fs1 fs2 project_path files :
  forall opened (pf1 pf2 : dict string),
  keys pf1 = keys pf2 ->
  (forall f, In f files -> is_web_file f = true ->
             (exists c, read_text fs1 (path_join project_path f) = Ok c) /\
             (exists c, read_text fs2 (path_join project_path f) = Ok c)) ->
  exists opened' pf1' pf2',
    read_files fs1 project_path files (opened, pf1) = (opened', Ok pf1') /\
    read_files fs2 project_path files (opened, pf2) = (opened', Ok pf2') /\
    keys pf1' = keys pf2'.
Proof.
  induction files as [|f files IH]; intros opened pf1 pf2 Hk Hr.
  - now exists opened, pf1, pf2.
  - cbn [read_files]. destruct (is_web_file f) eqn:Ew.
    + destruct (Hr f (or_introl eq_refl) Ew) as [[c1 H1] [c2 H2]].
      rewrite H1, H2. cbn [fst snd]. apply IH.
      * now apply keys_dict_set_same.
      * intros g Hg. apply Hr. now right.
    + apply IH; [exact Hk|]. intros g Hg. apply Hr. now right.
Qed.

(** The contents of the project files do not reach the run: on two file
    systems that list the same names for the folder, and on which the
    listed files with one of the three endings can be read, the improver
    opens the same files and returns the same thing, whatever the files
    hold. *)
Theorem improver_ignores_file_contents
  (repr_names : list string -> string)
  (json_loads : string -> result pyval) (str_other : pyval -> string)
  (pyfloat : Type) (format_1f : pyfloat -> string)
  (fs1 fs2 : filesystem) (project_path improvement_request target_audience : string)
  (analysis_answer tasks_answer : TaskOutput)
  (world : nat -> attempt pyfloat) (now : string) (files : list string) :
  path_exists fs1 project_path = path_exists fs2 project_path ->
  listdir fs1 project_path = Ok files ->
  listdir fs2 project_path = Ok files ->
  (forall f, In f files -> is_web_file f = true ->
             (exists c, read_text fs1 (path_join project_path f) = Ok c) /\
             (exists c, read_text fs2 (path_join project_path f) = Ok c)) ->
  improve_project repr_names json_loads str_other format_1f fs1
    project_path improvement_request target_audience
    analysis_answer tasks_answer world now
  = improve_project repr_names json_loads str_other format_1f fs2
    project_path improvement_request target_audience
    analysis_answer tasks_answer world now.
Proof.
  intros He Hl1 Hl2 Hr. unfold improve_project, read_project_files.
  rewrite He, Hl1, Hl2. destruct (path_exists fs2 project_path); [|reflexivity].
  destruct (read_files_same_keys fs1 fs2 project_path files [] [] [] eq_refl Hr)
    as (opened & pf1 & pf2 & H1 & H2 & Hk).
  match goal with
  | |- context [read_files fs1 project_path files ?st] =>
      replace (read_files fs1 project_path files st) with (opened, Ok pf1)
        by (symmetry; exact H1)
  end.
  match goal with
  | |- context [read_files fs2 project_path files ?st] =>
      replace (read_files fs2 project_path files st) with (opened, Ok pf2)
        by (symmetry; exact H2)
  end.
  unfold project_context. now rewrite Hk.
Qed.

Lemma improver_ignores_file_contents_witness :
  improve_project repr_plain Json.loads str_plain tenths_1f (example_fs false "old")
    "game" "add sound" "gamers"
    (text_output "A small game.") (text_output "TASK NAME: Build UI")
    example_world "2025-01-01T11:00:00"
  = improve_project repr_plain Json.loads str_plain tenths_1f (example_fs false "new")
    "game" "add sound" "gamers"
    (text_output "A small game.") (text_output "TASK NAME: Build UI")
    example_world "2025-01-01T11:00:00".
Proof.
  apply (improver_ignores_file_contents repr_plain Json.loads str_plain nat tenths_1f
           (example_fs false "old") (example_fs false "new")
           "game" "add sound" "gamers"
           (text_output "A small game.") (text_output "TASK NAME: Build UI")
           example_world "2025-01-01T11:00:00"
           ["index.html"; "notes.json"; "style.css"; "game.js"]);
    try reflexivity.
  intros f _ _. split; eexists; reflexivity.
Defined.

(** ** The value of a field *)

Lemma prefix_app_self m rest : prefix m (m ++ rest) = true.
Proof.
  induction m as [|c m IH]; [now destruct rest|].
  cbn [append prefix]. destruct (ascii_dec c c); [exact IH | congruence].
Qed.

Lemma prefix_shorten m : forall x y,
  prefix m (x ++ y) = true -> String.length m <= String.length x ->
  prefix m x = true.
Proof.
  induction m as [|c m IH]; intros x y H Hl; [now destruct x|].
  destruct x as [|d x]; [cbn in Hl; lia|].
  cbn [append prefix] in *. destruct (ascii_dec c d); [|discriminate].
  apply (IH x y H). cbn in Hl. lia.
Qed.

Lemma but_last_length m : m <> "" -> S (String.length (but_last m)) = String.length m.
Proof.
  induction m as [|c m IH]; [congruence|]. intros _.
  destruct m as [|d m]; [reflexivity|].
  cbn [but_last String.length]. f_equal. apply IH. discriminate.
Qed.

Lemma but_last_app m : m <> "" -> exists c, m = but_last m ++ String c "".
Proof.
  induction m as [|c m IH]; [congruence|]. intros _.
  destruct m as [|d m]; [now exists c|].
  destruct IH as [z Hz]; [discriminate|]. exists z.
  change (but_last (String c (String d m))) with (String c (but_last (String d m))).
  cbn [append]. now rewrite <- Hz.
Qed.

Lemma append_length a b : String.length (a ++ b) = String.length a + String.length b.
Proof.
  induction a as [|c a IH]; [reflexivity|]. cbn. now rewrite IH.
Qed.

Lemma split_from_skip sep x : forall cur rest,
  split_from sep (String.length x) cur (x ++ rest) = split_from sep 0 cur rest.
Proof.
  induction x as [|c x IH]; intros cur rest; [reflexivity|].
  cbn [String.length append split_from]. apply IH.
Qed.

(** A text that does not contain the separator is one piece. *)
Lemma split_from_absent sep s : forall cur,
  contains sep s = false -> split_from sep 0 cur s = [cur ++ s].
Proof.
  induction s as [|c s IH]; intros cur H.
  - cbn. now rewrite append_nil_r.
  - cbn [contains] in H. apply orb_false_iff in H as [Hp Hs].
    cbn [split_from]. rewrite Hp, (IH _ Hs), append_assoc. reflexivity.
Qed.

(** The first cut is made at the first occurrence of the separator. *)
Lemma split_from_first sep a rest : forall cur,
  sep <> "" ->
  contains sep (a ++ but_last sep) = false ->
  split_from sep 0 cur (a ++ sep ++ rest)
  = (cur ++ a) :: split_from sep 0 "" rest.
Proof.
  intros cur Hsep. revert cur. induction a as [|c a IH]; intros cur H.
  - rewrite append_nil_r. cbn [append].
    destruct sep as [|d sep']; [congruence|].
    pose proof (prefix_app_self (String d sep') rest) as Hp.
    cbn [append] in *. cbn [split_from]. rewrite Hp. f_equal.
    cbn [String.length].
    replace (S (String.length sep') - 1) with (String.length sep') by lia.
    apply split_from_skip.
  - cbn [append contains] in H. apply orb_false_iff in H as [Hp Hs].
    cbn [append split_from].
    destruct (prefix sep (String c (a ++ sep ++ rest))) eqn:E.
    + exfalso. destruct (but_last_app sep Hsep) as [z Hz].
      assert (E' : prefix sep ((String c (a ++ but_last sep)) ++ String z rest) = true).
      { cbn [append]. rewrite append_assoc.
        replace (but_last sep ++ String z rest) with (sep ++ rest); [exact E|].
        rewrite Hz at 1. now rewrite append_assoc. }
      apply prefix_shorten in E'.
      * congruence.
      * cbn [String.length]. rewrite append_length.
        pose proof (but_last_length sep Hsep). lia.
    + rewrite (IH _ Hs). now rewrite append_assoc.
Qed.

(** The value that a marker line gives is the text between the first
    occurrence of the marker and the next one, or the end of the line
    when there is no other, without the white space around it: a value
    that itself repeats the marker is cut there. *)
Theorem field_value_runs_to_next_marker (marker a rest : string) :
  marker <> "" ->
  contains marker (a ++ but_last marker) = false ->
  text_after marker (a ++ marker ++ rest) = strip (hd "" (split marker rest)) /\
  (contains marker rest = false ->
   text_after marker (a ++ marker ++ rest) = strip rest) /\
  (forall b c,
     rest = b ++ marker ++ c ->
     contains marker (b ++ but_last marker) = false ->
     text_after marker (a ++ marker ++ rest) = strip b).
Proof.
  intros Hm Ha.
  assert (H : text_after marker (a ++ marker ++ rest)
              = strip (hd "" (split marker rest))).
  { unfold text_after, split. rewrite (split_from_first marker a rest "" Hm Ha).
    cbn [nth]. now destruct (split_from marker 0 "" rest). }
  split; [exact H|]. split.
  - intros Hr. rewrite H. unfold split. now rewrite (split_from_absent _ _ _ Hr).
  - intros b c -> Hb. rewrite H. unfold split.
    now rewrite (split_from_first marker b c "" Hm Hb).
Qed.

Lemma field_value_runs_to_next_marker_witness :
  text_after "DESCRIPTION:" ("2. " ++ "DESCRIPTION:" ++ " see DESCRIPTION: below")
  = "see".
Proof.
  destruct (field_value_runs_to_next_marker "DESCRIPTION:" "2. "
              " see DESCRIPTION: below") as (_ & _ & H).
  - discriminate.
  - reflexivity.
  - exact (H " see " " below" eq_refl eq_refl).
Defined.

(** * Amended statements *)

(** C4, as stated, fails: what the chain returns need not be a list of
    task records.  A bracket match that decodes is returned as it is, here
    a list of two numbers. *)
Lemma decoded_value_need_not_be_task_records :
  re_search "see [1, 2] for details" = Some "[1, 2]" /\
  Json.loads "[1, 2]" = Ok (PList [PInt 1; PInt 2]) /\
  generate_custom_tasks Json.loads (text_output "see [1, 2] for details")
    = Ok (PList [PInt 1; PInt 2]) /\
  (forall tasks, PList [PInt 1; PInt 2] <> tasks_value tasks).
Proof.
  repeat split; try (vm_compute; reflexivity).
  intros tasks H. unfold tasks_value in H. injection H as H.
  destruct tasks as [|t tasks]; discriminate.
Qed.

(** C4, amended: whatever the answer of the model and whatever the JSON
    decoder does, [generate_custom_tasks] returns a value and raises
    nothing.  When the text read has a bracket match that decodes, the
    value is the decoded match as it is, whatever it is.  Otherwise it is
    a non-empty list of task records, each holding strings under the keys
    name, description, expected_output and success_criteria only: the
    records of the line heuristic, run on [str(result)] after a failed
    decoding and on the text read when there is no match, which are the
    fixed tasks when the scan finds no record. *)
Theorem extractor_never_raises
  (json_loads : string -> result pyval) (result : TaskOutput) :
  exists v,
    generate_custom_tasks json_loads result = Ok v /\
    ((exists m, re_search (task_data result) = Some m /\ json_loads m = Ok v) \/
     (exists text tasks,
        _parse_text_tasks text = Ok tasks /\
        tasks <> [] /\
        forallb text_record tasks = true /\
        v = tasks_value tasks /\
        ((exists m e, re_search (task_data result) = Some m /\
                      json_loads m = Raise e /\ text = str result) \/
         (re_search (task_data result) = None /\ text = task_data result)))).
Proof.
  pose proof (generate_custom_tasks_cases json_loads result) as H.
  destruct (re_search (task_data result)) as [m|] eqn:Em.
  - destruct (json_loads m) as [v|e] eqn:Ej.
    + exists v. split; [exact H|]. left. now exists m.
    + destruct (parse_text_tasks_records (str result)) as (t & Ht & Hne & Htr).
      rewrite Ht in H. exists (tasks_value t). split; [exact H|]. right.
      exists (str result), t. repeat split; try assumption.
      left. now exists m, e.
  - destruct (parse_text_tasks_records (task_data result)) as (t & Ht & Hne & Htr).
    rewrite Ht in H. exists (tasks_value t). split; [exact H|]. right.
    exists (task_data result), t. repeat split; try assumption.
    now right.
Qed.



Lemma existsb_map {A B} (f : B -> bool) (g : A -> B) l :
  existsb f (map g l) = existsb (fun a => f (g a)) l.
Proof.
  induction l as [|a l IH]; [reflexivity|]. cbn. now rewrite IH.
Qed.

Lemma existsb_pointwise {A} (f g : A -> bool) l :
  (forall a, f a = g a) -> existsb f l = existsb g l.
Proof.
  intros H. induction l as [|a l IH]; [reflexivity|]. cbn. now rewrite H, IH.
Qed.


